(** * Employee turnover dashboard: session, fetch and fallback model

    A shallow embedding of the Next.js frontend of the employee turnover
    prediction system: the browser's token slot ([localStorage 'token']),
    the outbound HTTP requests, the view controllers' fetch/fallback
    handlers, the percentage formatter and the High Risk Table. *)

From Stdlib Require Import List String Ascii ZArith QArith Qround Qabs Lia Lqa Bool.
Import ListNotations.
Open Scope string_scope.
Set Warnings "-register-all".

(* ================================================================= *)
(** ** Browser state: the token slot, the location and the request log *)

(** Completion of an async handler: normal return or an exception that
    escapes it. *)
Inductive completion (A : Type) :=
| Normal (a : A)
| Throw (e : string).
Arguments Normal {A} a.
Arguments Throw {A} e.

(** JSON values, as [response.json()] and [JSON.stringify] see them. *)
Inductive json :=
| JNull
| JBool (b : bool)
| JNum (q : Q)
| JStr (s : string)
| JArr (l : list json)
| JObj (kv : list (string * json)).

(** JavaScript truthiness of a value, [None] standing for [undefined]. *)
Definition truthy (v : option json) : bool :=
  match v with
  | None | Some JNull => false
  | Some (JBool b) => b
  | Some (JNum q) => negb (Qeq_bool q 0)
  | Some (JStr s) => negb (String.eqb s "")
  | Some (JArr _) | Some (JObj _) => true
  end.

(** [a < b] on numbers. *)
Definition Qltb (a b : Q) : bool := negb (Qle_bool b a).

(** [a || b] on JSON values. *)
Definition js_or (a : option json) (b : json) : json :=
  if truthy a then match a with Some v => v | None => b end else b.

(** Property read [data.f]: [undefined] on a missing key or a primitive,
    a [TypeError] on [null]. [JSON.parse] keeps the last duplicate key. *)
Definition get_field (v : json) (f : string) : completion (option json) :=
  match v with
  | JNull => Throw "TypeError"
  | JObj kv =>
      Normal (match find (fun p => String.eqb (fst p) f) (rev kv) with
              | Some (_, x) => Some x
              | None => None
              end)
  | _ => Normal None
  end.

(** An outbound HTTP request, as it leaves [fetch] or the API client. *)
Record request := mkRequest {
  req_method : string;
  req_url : string;
  req_auth : option string;      (** value of the Authorization header *)
  req_body : option json         (** the JSON payload sent *)
}.

(** The part of the browser every component shares: [localStorage]'s
    ['token'] key, a pending [window.location.href] / [router.push]
    target, the requests issued so far and the [alert]s shown (most
    recent last). *)
Record browser := mkBrowser {
  token : option string;
  href : option string;
  sent : list request;
  alerts : list string
}.

Definition setItem_token (v : string) (b : browser) : browser :=
  mkBrowser (Some v) (href b) (sent b) (alerts b).

Definition removeItem_token (b : browser) : browser :=
  mkBrowser None (href b) (sent b) (alerts b).

Definition navigate (url : string) (b : browser) : browser :=
  mkBrowser (token b) (Some url) (sent b) (alerts b).

Definition issue (r : request) (b : browser) : browser :=
  mkBrowser (token b) (href b) (sent b ++ [r]) (alerts b).

Definition alert (msg : string) (b : browser) : browser :=
  mkBrowser (token b) (href b) (sent b) (alerts b ++ [msg]).

(** [`Bearer ${localStorage.getItem('token')}`]: a template literal, so a
    missing token is rendered as the text [null]. *)
Definition bearer_header (b : browser) : string :=
  "Bearer " ++ match token b with Some t => t | None => "null" end.

Definition api_base : string := "http://localhost:8000/api/v1/".

(* ================================================================= *)
(** ** The shared API client ([src/lib/api.ts]) *)

(** Settlement of a promise returned by an [apiClient] operation. *)
Inductive api_result (A : Type) :=
| ApiOk (a : A)
| ApiError (status : Z) (message : string)
| NetworkError.
Arguments ApiOk {A} a.
Arguments ApiError {A} status message.
Arguments NetworkError {A}.

Definition api_failed {A} (r : api_result A) : bool :=
  match r with ApiOk _ => false | _ => true end.

(** The operations of [apiClient] used by the views. *)
Inductive api_op :=
| OpLogin | OpLogout
| OpDashboardAnalytics | OpRiskDistribution | OpTurnoverByDepartment
| OpTurnoverBySalary | OpSatisfactionDistribution | OpProjectCountAnalysis
| OpClusteringAnalysis | OpHighRiskPredictions | OpPredict
| OpSystemStatus | OpTrainModels.

(** Modelled from the spec: the request each [apiClient] operation issues
    ([src/lib/api.ts] is not part of the repository snapshot); method and
    path follow the spec's endpoint table, the bearer header is attached
    when a token is present. *)
Definition api_request (op : api_op) (body : option json) (b : browser)
  : request :=
  let auth := match token b with Some t => Some ("Bearer " ++ t) | None => None end in
  match op with
  | OpLogin => mkRequest "POST" (api_base ++ "auth/login") None body
  | OpLogout => mkRequest "POST" (api_base ++ "auth/logout") auth None
  | OpDashboardAnalytics => mkRequest "GET" (api_base ++ "analytics/dashboard") auth None
  | OpRiskDistribution => mkRequest "GET" (api_base ++ "analytics/risk-distribution") auth None
  | OpTurnoverByDepartment => mkRequest "GET" (api_base ++ "analytics/turnover-by-department") auth None
  | OpTurnoverBySalary => mkRequest "GET" (api_base ++ "analytics/turnover-by-salary") auth None
  | OpSatisfactionDistribution => mkRequest "GET" (api_base ++ "analytics/satisfaction-distribution") auth None
  | OpProjectCountAnalysis => mkRequest "GET" (api_base ++ "analytics/project-count-analysis") auth None
  | OpClusteringAnalysis => mkRequest "GET" (api_base ++ "analytics/clustering-analysis") auth None
  | OpHighRiskPredictions => mkRequest "GET" (api_base ++ "predictions/high-risk") auth None
  | OpPredict => mkRequest "POST" (api_base ++ "predictions/predict") auth body
  | OpSystemStatus => mkRequest "GET" (api_base ++ "admin/system-status") auth None
  | OpTrainModels => mkRequest "POST" (api_base ++ "admin/train-models") auth None
  end.

(** Modelled from the spec: the client's effect on the token slot once an
    operation settles. A successful login stores the returned token
    ([login_token]), a 401 on any operation clears it, nothing else
    touches it. *)
Definition api_settle {A} (op : api_op) (login_token : A -> option string)
    (r : api_result A) (b : browser) : browser :=
  match r with
  | ApiOk a =>
      match op, login_token a with
      | OpLogin, Some t => setItem_token t b
      | _, _ => b
      end
  | ApiError 401 _ => removeItem_token b
  | _ => b
  end.

(** One complete [apiClient] call: the request goes out, then the
    settlement acts on the token slot. *)
Definition api_call {A} (op : api_op) (body : option json)
    (login_token : A -> option string) (r : api_result A) (b : browser)
  : browser :=
  api_settle op login_token r (issue (api_request op body b) b).

Definition no_token {A} (_ : A) : option string := None.

(* ================================================================= *)
(** ** AnalyticsDashboard ([components/Dashboard/AnalyticsDashboard.tsx]) *)

Record DepartmentStats := mkDepartmentStats {
  ds_department : string;
  ds_total_employees : Z;
  ds_employees_left : Z;
  ds_turnover_rate : Q;
  ds_avg_satisfaction : Q
}.

Record AnalyticsData := mkAnalyticsData {
  total_employees : Z;
  employees_left : Z;
  turnover_rate : Q;
  high_risk_employees : Z;
  safe_employees : Z;
  department_stats : list DepartmentStats
}.

Record RiskDistribution := mkRiskDistribution {
  rd_low : Z; rd_medium : Z; rd_high : Z; rd_critical : Z
}.

Record TurnoverByDepartment := mkTurnoverByDepartment {
  td_department : string; td_turnover_rate : Q; td_employee_count : Z
}.

Record TurnoverBySalary := mkTurnoverBySalary {
  ts_salary_level : string; ts_turnover_rate : Q; ts_employee_count : Z
}.

Record SatisfactionDistribution := mkSatisfactionDistribution {
  sd_satisfaction_range : string; sd_employee_count : Z; sd_turnover_rate : Q
}.

Record ProjectCountAnalysis := mkProjectCountAnalysis {
  pc_project_count : Z; pc_employee_count : Z; pc_avg_satisfaction : Q;
  pc_turnover_rate : Q
}.

Record ClusteringAnalysis := mkClusteringAnalysis {
  cl_cluster_id : Z; cl_cluster_name : string; cl_employee_count : Z;
  cl_avg_satisfaction : Q; cl_avg_evaluation : Q; cl_turnover_rate : Q
}.

(** The component's state hooks. *)
Record AnalyticsState := mkAnalyticsState {
  analyticsData : option AnalyticsData;
  riskDistribution : option RiskDistribution;
  turnoverByDept : list TurnoverByDepartment;
  turnoverBySalary : list TurnoverBySalary;
  satisfactionDist : list SatisfactionDistribution;
  projectAnalysis : list ProjectCountAnalysis;
  clusteringAnalysis : list ClusteringAnalysis;
  a_loading : bool
}.

(** [useState] initial values. *)
Definition analytics_initial : AnalyticsState :=
  mkAnalyticsState None None [] [] [] [] [] true.

(** The demo data of the [catch] block, lines 116-272. *)
Definition demo_analyticsData : AnalyticsData :=
  mkAnalyticsData 14999 3571 (238 # 1000) 1250 8500 [
    mkDepartmentStats "sales" 4140 1012 (244 # 1000) (612 # 1000);
    mkDepartmentStats "technical" 2720 512 (188 # 1000) (678 # 1000);
    mkDepartmentStats "support" 2229 355 (159 # 1000) (698 # 1000);
    mkDepartmentStats "IT" 1227 162 (132 # 1000) (721 # 1000);
    mkDepartmentStats "product_mng" 902 198 (219 # 1000) (645 # 1000);
    mkDepartmentStats "marketing" 858 183 (213 # 1000) (652 # 1000);
    mkDepartmentStats "RandD" 787 89 (113 # 1000) (734 # 1000);
    mkDepartmentStats "accounting" 767 134 (175 # 1000) (689 # 1000);
    mkDepartmentStats "hr" 739 123 (166 # 1000) (692 # 1000);
    mkDepartmentStats "management" 630 83 (132 # 1000) (721 # 1000)].

Definition demo_riskDistribution : RiskDistribution :=
  mkRiskDistribution 8500 3249 2000 1250.

Definition demo_turnoverByDept : list TurnoverByDepartment := [
  mkTurnoverByDepartment "sales" (244 # 1000) 4140;
  mkTurnoverByDepartment "technical" (188 # 1000) 2720;
  mkTurnoverByDepartment "support" (159 # 1000) 2229;
  mkTurnoverByDepartment "IT" (132 # 1000) 1227;
  mkTurnoverByDepartment "product_mng" (219 # 1000) 902;
  mkTurnoverByDepartment "marketing" (213 # 1000) 858;
  mkTurnoverByDepartment "RandD" (113 # 1000) 787;
  mkTurnoverByDepartment "accounting" (175 # 1000) 767;
  mkTurnoverByDepartment "hr" (166 # 1000) 739;
  mkTurnoverByDepartment "management" (132 # 1000) 630].

Definition demo_turnoverBySalary : list TurnoverBySalary := [
  mkTurnoverBySalary "low" (267 # 1000) 7316;
  mkTurnoverBySalary "medium" (198 # 1000) 6446;
  mkTurnoverBySalary "high" (123 # 1000) 1237].

Definition demo_satisfactionDist : list SatisfactionDistribution := [
  mkSatisfactionDistribution "0.0-0.2" 1249 (456 # 1000);
  mkSatisfactionDistribution "0.2-0.4" 1874 (389 # 1000);
  mkSatisfactionDistribution "0.4-0.6" 3749 (234 # 1000);
  mkSatisfactionDistribution "0.6-0.8" 5624 (156 # 1000);
  mkSatisfactionDistribution "0.8-1.0" 2503 (89 # 1000)].

Definition demo_projectAnalysis : list ProjectCountAnalysis := [
  mkProjectCountAnalysis 2 3749 (456 # 1000) (234 # 1000);
  mkProjectCountAnalysis 3 5624 (567 # 1000) (189 # 1000);
  mkProjectCountAnalysis 4 3749 (678 # 1000) (145 # 1000);
  mkProjectCountAnalysis 5 1874 (789 # 1000) (98 # 1000);
  mkProjectCountAnalysis 6 3 (890 # 1000) (67 # 1000)].

Definition demo_clusteringAnalysis : list ClusteringAnalysis := [
  mkClusteringAnalysis 1 "High Performers" 2503 (789 # 1000) (856 # 1000) (89 # 1000);
  mkClusteringAnalysis 2 "Stable Employees" 5624 (567 # 1000) (634 # 1000) (156 # 1000);
  mkClusteringAnalysis 3 "At Risk" 3749 (456 # 1000) (423 # 1000) (234 # 1000);
  mkClusteringAnalysis 4 "Critical Risk" 3123 (234 # 1000) (312 # 1000) (456 # 1000)].

(** Settlements of the seven concurrent [apiClient] calls. *)
Record AnalyticsResults := mkAnalyticsResults {
  r_dashboard : api_result AnalyticsData;
  r_risk : api_result RiskDistribution;
  r_dept : api_result (list TurnoverByDepartment);
  r_salary : api_result (list TurnoverBySalary);
  r_satisfaction : api_result (list SatisfactionDistribution);
  r_project : api_result (list ProjectCountAnalysis);
  r_clustering : api_result (list ClusteringAnalysis)
}.

(** [Promise.all([...])]: fulfils with the tuple of the seven values when
    every promise fulfils, rejects as soon as one rejects. *)
Definition promise_all7 (rs : AnalyticsResults)
  : option (AnalyticsData * RiskDistribution * list TurnoverByDepartment
            * list TurnoverBySalary * list SatisfactionDistribution
            * list ProjectCountAnalysis * list ClusteringAnalysis) :=
  match r_dashboard rs, r_risk rs, r_dept rs, r_salary rs,
        r_satisfaction rs, r_project rs, r_clustering rs with
  | ApiOk d, ApiOk r, ApiOk de, ApiOk sa, ApiOk sat, ApiOk pr, ApiOk cl =>
      Some (d, r, de, sa, sat, pr, cl)
  | _, _, _, _, _, _, _ => None
  end.

(** [fetchAnalyticsData]: [setLoading(true)], the fan-out, then either the
    seven setters with the live values or the [catch] block's seven demo
    setters, and [setLoading(false)] in [finally]. *)
Definition fetchAnalyticsData (rs : AnalyticsResults) (s : AnalyticsState)
  : AnalyticsState :=
  match promise_all7 rs with
  | Some (d, r, de, sa, sat, pr, cl) =>
      mkAnalyticsState (Some d) (Some r) de sa sat pr cl false
  | None =>
      mkAnalyticsState (Some demo_analyticsData) (Some demo_riskDistribution)
        demo_turnoverByDept demo_turnoverBySalary demo_satisfactionDist
        demo_projectAnalysis demo_clusteringAnalysis false
  end.

(** The state the [catch] block leaves behind. *)
Definition analytics_demo_state : AnalyticsState :=
  mkAnalyticsState (Some demo_analyticsData) (Some demo_riskDistribution)
    demo_turnoverByDept demo_turnoverBySalary demo_satisfactionDist
    demo_projectAnalysis demo_clusteringAnalysis false.

(** The endpoints [fetchAnalyticsData] calls, in [Promise.all] order. *)
Definition analytics_ops : list api_op :=
  [OpDashboardAnalytics; OpRiskDistribution; OpTurnoverByDepartment;
   OpTurnoverBySalary; OpSatisfactionDistribution; OpProjectCountAnalysis;
   OpClusteringAnalysis].

(** [fetchAnalyticsData]'s effect on the browser: the seven requests all
    leave synchronously when [Promise.all] is built, then the client
    settles each of them. *)
Definition analytics_requests (rs : AnalyticsResults) (b : browser) : browser :=
  let b := fold_left (fun b op => issue (api_request op None b) b) analytics_ops b in
  let b := api_settle OpDashboardAnalytics no_token (r_dashboard rs) b in
  let b := api_settle OpRiskDistribution no_token (r_risk rs) b in
  let b := api_settle OpTurnoverByDepartment no_token (r_dept rs) b in
  let b := api_settle OpTurnoverBySalary no_token (r_salary rs) b in
  let b := api_settle OpSatisfactionDistribution no_token (r_satisfaction rs) b in
  let b := api_settle OpProjectCountAnalysis no_token (r_project rs) b in
  api_settle OpClusteringAnalysis no_token (r_clustering rs) b.

(* ================================================================= *)
(** ** Direct [fetch] calls *)

(** Settlement of a bare [fetch(...)]: it rejects only when no response
    arrives; otherwise it resolves whatever the status, with a body that
    [response.json()] parses ([None]: not JSON, so [json()] rejects). *)
Inductive fetch_result :=
| FetchNetworkFailure
| FetchResponse (status : Z) (body : option json).

(** [response.ok]. *)
Definition response_ok (status : Z) : bool := ((200 <=? status) && (status <=? 299))%Z.

(** [await fetch(url); await response.json()] as the views write it:
    the parsed body, or the exception that sends control to [catch]. *)
Definition fetch_json (r : fetch_result) : completion json :=
  match r with
  | FetchNetworkFailure => Throw "TypeError: Failed to fetch"
  | FetchResponse _ None => Throw "SyntaxError"
  | FetchResponse _ (Some d) => Normal d
  end.

(** A GET with the views' hand-written header. *)
Definition get_with_token (url : string) (b : browser) : request :=
  mkRequest "GET" url (Some (bearer_header b)) None.

(** [{...o, [k]: v}]: an existing key keeps its place, a new one is
    appended. *)
Fixpoint obj_set (kv : list (string * json)) (k : string) (v : json)
  : list (string * json) :=
  match kv with
  | [] => [(k, v)]
  | (k', v') :: rest =>
      if String.eqb k' k then (k, v) :: rest else (k', v') :: obj_set rest k v
  end.

(* ================================================================= *)
(** ** EmployeesDashboard ([components/Employees/EmployeesDashboard.tsx]) *)

(** An [Employee] object literal of the demo data. *)
Definition employee_json (id : string) (sat ev : Q) (np hours tsc wa promo : Z)
    (dept salary : string) (left : Z) (created updated : option string) : json :=
  JObj ([("employee_id", JStr id); ("satisfaction_level", JNum sat);
         ("last_evaluation", JNum ev); ("number_project", JNum (inject_Z np));
         ("average_monthly_hours", JNum (inject_Z hours));
         ("time_spend_company", JNum (inject_Z tsc));
         ("work_accident", JNum (inject_Z wa));
         ("promotion_last_5years", JNum (inject_Z promo));
         ("department", JStr dept); ("salary", JStr salary);
         ("left", JNum (inject_Z left))]
        ++ match created with Some c => [("created_at", JStr c)] | None => [] end
        ++ match updated with Some u => [("updated_at", JStr u)] | None => [] end).

(** The demo employees of [fetchEmployees]'s [catch] block. *)
Definition demo_employees : json :=
  JArr [employee_json "EMP001" (38 # 100) (53 # 100) 2 157 3 0 0 "sales" "low" 1
          (Some "2024-01-01T00:00:00Z") (Some "2024-01-01T00:00:00Z");
        employee_json "EMP002" (80 # 100) (86 # 100) 5 262 6 0 0 "technical" "medium" 0
          (Some "2024-01-02T00:00:00Z") (Some "2024-01-02T00:00:00Z")].

(** The demo data of [fetchEmployeeDetails]'s [catch] block. *)
Definition demo_selectedEmployee (id : string) : json :=
  employee_json id (45 # 100) (65 # 100) 3 180 2 0 0 "sales" "medium" 0 None None.

Definition demo_employeePredictions (id : string) : json :=
  JArr [JObj [("employee_id", JStr id); ("turnover_probability", JNum (35 # 100));
              ("risk_zone", JStr "medium");
              ("prediction_date", JStr "2024-01-01T00:00:00Z");
              ("model_used", JStr "random_forest");
              ("confidence_score", JNum (85 # 100))]].

Definition demo_retentionStrategies (id : string) : json :=
  JArr [JObj [("strategy_id", JStr ("STRAT_" ++ id ++ "_001")); ("employee_id", JStr id);
              ("risk_zone", JStr "medium"); ("strategy_type", JStr "Career Development");
              ("description", JStr "Create a career development plan with clear promotion path");
              ("estimated_cost", JNum 5000); ("success_probability", JNum (7 # 10));
              ("status", JStr "pending"); ("created_at", JStr "2024-01-01T00:00:00Z")]].

(** The add form's initial [formData] (also what a successful create
    resets it to). *)
Definition initial_formData : list (string * json) :=
  [("satisfaction_level", JNum (1 # 2)); ("last_evaluation", JNum (1 # 2));
   ("number_project", JNum 2); ("average_monthly_hours", JNum 160);
   ("time_spend_company", JNum 2); ("work_accident", JNum 0);
   ("promotion_last_5years", JNum 0); ("department", JStr "sales");
   ("salary", JStr "low")].

Record EmployeesState := mkEmployeesState {
  employees : json;
  selectedEmployee : option json;
  employeePredictions : json;
  retentionStrategies : json;
  e_loading : bool;
  showAddForm : bool;
  formData : list (string * json)
}.

Definition employees_initial : EmployeesState :=
  mkEmployeesState (JArr []) None (JArr []) (JArr []) false false initial_formData.

Definition set_employees (v : json) (s : EmployeesState) : EmployeesState :=
  mkEmployeesState v (selectedEmployee s) (employeePredictions s)
    (retentionStrategies s) (e_loading s) (showAddForm s) (formData s).

Definition set_e_loading (l : bool) (s : EmployeesState) : EmployeesState :=
  mkEmployeesState (employees s) (selectedEmployee s) (employeePredictions s)
    (retentionStrategies s) l (showAddForm s) (formData s).

Definition set_details (sel : option json) (preds strats : json)
    (s : EmployeesState) : EmployeesState :=
  mkEmployeesState (employees s) sel preds strats (e_loading s) (showAddForm s)
    (formData s).

Definition set_formData (f : list (string * json)) (s : EmployeesState)
  : EmployeesState :=
  mkEmployeesState (employees s) (selectedEmployee s) (employeePredictions s)
    (retentionStrategies s) (e_loading s) (showAddForm s) f.

Definition set_showAddForm (v : bool) (s : EmployeesState) : EmployeesState :=
  mkEmployeesState (employees s) (selectedEmployee s) (employeePredictions s)
    (retentionStrategies s) (e_loading s) v (formData s).

Definition employees_url : string := api_base ++ "employees/".

(** [fetchEmployees], lines 75-123: [setLoading(true)], the GET, then
    [setEmployees(data.employees || [])]; the [catch] block installs the
    demo employees; [finally] clears [loading]. *)
Definition fetchEmployees (r : fetch_result) (s : EmployeesState) (b : browser)
  : EmployeesState * browser :=
  let b1 := issue (get_with_token employees_url b) b in
  let s1 := set_e_loading true s in
  let s2 :=
    match fetch_json r with
    | Normal data =>
        match get_field data "employees" with
        | Normal v => set_employees (js_or v (JArr [])) s1
        | Throw _ => set_employees demo_employees s1
        end
    | Throw _ => set_employees demo_employees s1
    end in
  (set_e_loading false s2, b1).

(** [fetchEmployeeDetails], lines 125-198: three GETs in sequence; the
    first failure jumps to [catch], which installs the demo details. *)
Definition fetchEmployeeDetails (employeeId : string)
    (r1 r2 r3 : fetch_result) (s : EmployeesState) (b : browser)
  : EmployeesState * browser :=
  let s1 := set_e_loading true s in
  let demo s' :=
    set_details (Some (demo_selectedEmployee employeeId))
      (demo_employeePredictions employeeId)
      (demo_retentionStrategies employeeId) s' in
  let b1 := issue (get_with_token (api_base ++ "employees/" ++ employeeId) b) b in
  let '(s3, b3) :=
    match fetch_json r1 with
    | Throw _ => (demo s1, b1)
    | Normal employeeData =>
        let s2 := set_details (Some employeeData) (employeePredictions s1)
                    (retentionStrategies s1) s1 in
        let b2 := issue (get_with_token
                    (api_base ++ "predictions/employee/" ++ employeeId) b1) b1 in
        match fetch_json r2 with
        | Throw _ => (demo s2, b2)
        | Normal predictionsData =>
            let s2' := set_details (selectedEmployee s2) predictionsData
                         (retentionStrategies s2) s2 in
            let b3 := issue (get_with_token
                        (api_base ++ "employees/" ++ employeeId
                         ++ "/retention-strategies") b2) b2 in
            match fetch_json r3 with
            | Throw _ => (demo s2', b3)
            | Normal strategiesData =>
                match get_field strategiesData "strategies" with
                | Throw _ => (demo s2', b3)
                | Normal v =>
                    (set_details (selectedEmployee s2') (employeePredictions s2')
                       (js_or v (JArr [])) s2', b3)
                end
            end
        end
    end in
  (set_e_loading false s3, b3).

(** [createEmployee], lines 200-240: POST of
    [{...formData, employee_id: `EMP${Date.now()}`, left: 0}]. On
    [response.ok] the form is reset and [fetchEmployees()] is started
    (not awaited; [r_list] is how that refetch settles), otherwise an
    alert. [now] is [Date.now()]. *)
Definition createEmployee (now : string) (r r_list : fetch_result)
    (s : EmployeesState) (b : browser) : EmployeesState * browser :=
  let s1 := set_e_loading true s in
  let payload :=
    JObj (obj_set (obj_set (formData s1) "employee_id" (JStr ("EMP" ++ now)))
            "left" (JNum 0)) in
  let b1 := issue (mkRequest "POST" employees_url (Some (bearer_header b))
                     (Some payload)) b in
  let '(s2, b2) :=
    match r with
    | FetchResponse status _ =>
        if response_ok status then
          let s' := set_formData initial_formData (set_showAddForm false s1) in
          let '(s'', b') := fetchEmployees r_list s' b1 in
          (s'', alert "Employee created successfully!" b')
        else (s1, alert "Failed to create employee. Please try again." b1)
    | FetchNetworkFailure =>
        (s1, alert "Error creating employee. Please try again." b1)
    end in
  (set_e_loading false s2, b2).

(** [handleFormChange(field, value)]: [setFormData(prev => ({...prev,
    [field]: value}))]. *)
Definition handleFormChange (field : string) (value : json) (s : EmployeesState)
  : EmployeesState :=
  set_formData (obj_set (formData s) field value) s.

(** User interaction with the Add Employee tab. The number inputs carry
    [min]/[max] attributes but no [<form>] surrounds them: their
    [onChange] hands [parseFloat(e.target.value)] to [handleFormChange]
    as typed, and the Create button's [onClick] calls [createEmployee]
    unless the button is [disabled={loading}]. *)
Inductive add_form_event :=
| TypeIntoField (field : string) (value : Q)
| ClickCreate (now : string) (r r_list : fetch_result).

Definition add_form_step (e : add_form_event) (sb : EmployeesState * browser)
  : EmployeesState * browser :=
  let '(s, b) := sb in
  match e with
  | TypeIntoField f v => (handleFormChange f (JNum v) s, b)
  | ClickCreate now r r_list =>
      if e_loading s then (s, b) else createEmployee now r r_list s b
  end.

Definition add_form_run (es : list add_form_event) (sb : EmployeesState * browser)
  : EmployeesState * browser :=
  fold_left (fun acc e => add_form_step e acc) es sb.

(* ================================================================= *)
(** ** PredictionsDashboard ([components/Predictions/PredictionsDashboard.tsx]) *)

Record Prediction := mkPrediction {
  pr_id : Z;
  pr_employee_id : string;
  turnover_probability : Q;
  risk_zone : string;
  model_used : string;
  prediction_confidence : string;
  created_at : string;
  created_by : Z
}.

Record PredictionsState := mkPredictionsState {
  predictions : json;
  highRiskEmployees : json;
  predictionResult : option Prediction;
  p_loading : bool;
  p_formData : list (string * json)
}.

Definition predictions_initial : PredictionsState :=
  mkPredictionsState (JArr []) (JArr []) None false initial_formData.

Definition set_predictions (v : json) (s : PredictionsState) : PredictionsState :=
  mkPredictionsState v (highRiskEmployees s) (predictionResult s) (p_loading s)
    (p_formData s).

Definition set_highRiskEmployees (v : json) (s : PredictionsState)
  : PredictionsState :=
  mkPredictionsState (predictions s) v (predictionResult s) (p_loading s)
    (p_formData s).

Definition set_predictionResult (v : Prediction) (s : PredictionsState)
  : PredictionsState :=
  mkPredictionsState (predictions s) (highRiskEmployees s) (Some v) (p_loading s)
    (p_formData s).

Definition set_p_loading (l : bool) (s : PredictionsState) : PredictionsState :=
  mkPredictionsState (predictions s) (highRiskEmployees s) (predictionResult s) l
    (p_formData s).

Definition high_risk_json (id dept : string) (p : Q) (zone : string)
    (ev sat : Q) (tsc : Z) : json :=
  JObj [("employee_id", JStr id); ("department", JStr dept);
        ("turnover_probability", JNum p); ("risk_zone", JStr zone);
        ("last_evaluation", JNum ev); ("satisfaction_level", JNum sat);
        ("time_spend_company", JNum (inject_Z tsc))].

Definition demo_highRiskEmployees : json :=
  JArr [high_risk_json "EMP001" "sales" (85 # 100) "high" (45 # 100) (25 # 100) 2;
        high_risk_json "EMP003" "support" (78 # 100) "high" (88 # 100) (11 # 100) 4].

(** [fetchHighRiskEmployees], lines 71-99 (no [loading] change). *)
Definition fetchHighRiskEmployees (r : api_result json) (s : PredictionsState)
    (b : browser) : PredictionsState * browser :=
  let b' := api_call OpHighRiskPredictions None no_token r b in
  match r with
  | ApiOk data => (set_highRiskEmployees data s, b')
  | _ => (set_highRiskEmployees demo_highRiskEmployees s, b')
  end.

Definition demo_prediction_json (id : Z) (empId : string) (p : Q) (zone conf date : string)
  : json :=
  JObj [("id", JNum (inject_Z id)); ("employee_id", JStr empId);
        ("turnover_probability", JNum p); ("risk_zone", JStr zone);
        ("model_used", JStr "random_forest"); ("prediction_confidence", JStr conf);
        ("created_at", JStr date); ("created_by", JNum 1)].

(** [fetchEmployeePredictions], lines 128-166: a bare GET, then
    [setPredictions(data)] with whatever body came back. *)
Definition fetchEmployeePredictions (empId : string) (r : fetch_result)
    (s : PredictionsState) (b : browser) : PredictionsState * browser :=
  let s1 := set_p_loading true s in
  let b1 := issue (get_with_token (api_base ++ "predictions/employee/" ++ empId) b) b in
  let s2 :=
    match fetch_json r with
    | Normal data => set_predictions data s1
    | Throw _ =>
        set_predictions
          (JArr [demo_prediction_json 1 empId (75 # 100) "High Risk Zone (Red)" "High"
                   "2024-01-01T00:00:00Z";
                 demo_prediction_json 2 empId (68 # 100) "Medium Risk Zone (Orange)"
                   "Medium" "2024-01-02T00:00:00Z"]) s1
    end in
  (set_p_loading false s2, b1).

(** The [catch] branch of [predictTurnover], lines 184-200:
    [mockProbability] is [Math.random()], [now] is [Date.now()] and
    [iso] is [new Date().toISOString()]. *)
Definition predict_fallback (mockProbability : Q) (now iso : string) : Prediction :=
  let riskZone :=
    if Qltb mockProbability (2 # 10) then "low"
    else if Qltb mockProbability (6 # 10) then "medium"
    else if Qltb mockProbability (9 # 10) then "high"
    else "critical" in
  mkPrediction 1 ("EMP" ++ now) mockProbability riskZone "random_forest" "High" iso 1.

(** [predictTurnover], lines 168-204. *)
Definition predictTurnover (now iso : string) (mockProbability : Q)
    (r : api_result Prediction) (s : PredictionsState) (b : browser)
  : PredictionsState * browser :=
  let s1 := set_p_loading true s in
  let predictionData :=
    JObj (obj_set (obj_set (p_formData s1) "employee_id" (JStr ("EMP" ++ now)))
            "left" (JNum 0)) in
  let b1 := api_call OpPredict (Some predictionData) no_token r b in
  let s2 :=
    match r with
    | ApiOk data => set_predictionResult data s1
    | _ => set_predictionResult (predict_fallback mockProbability now iso) s1
    end in
  (set_p_loading false s2, b1).

(** The claim's reading of a risk zone: the band of [0.2], [0.6], [0.9]
    that holds the probability. *)
Inductive zone_matches : Q -> string -> Prop :=
| zone_low p : p < 2 # 10 -> zone_matches p "low"
| zone_medium p : 2 # 10 <= p -> p < 6 # 10 -> zone_matches p "medium"
| zone_high p : 6 # 10 <= p -> p < 9 # 10 -> zone_matches p "high"
| zone_critical p : 9 # 10 <= p -> zone_matches p "critical".

(* ================================================================= *)
(** ** Navigation, login and landing handlers *)

(** [Navigation.handleLogout], PredictionsDashboard.tsx lines 681-694:
    both the [try] path and the [catch] path remove the token and go to
    [/login]. [r] is how [apiClient.logout()] settles. *)
Definition handleLogout (r : api_result unit) (b : browser) : completion browser :=
  let b1 := api_call OpLogout None no_token r b in
  match r with
  | ApiOk _ => Normal (navigate "/login" (removeItem_token b1))
  | _ => Normal (navigate "/login" (removeItem_token b1))
  end.

(** What [apiClient.login] resolves with. *)
Record LoginResponse := mkLoginResponse { access_token : string }.

Definition login_response_token (r : LoginResponse) : option string :=
  Some (access_token r).

(** [LoginPage.handleLogin], login/page.tsx lines 15-35: on success the
    client has stored the token and the page moves to [/dashboard]; on
    failure the page stores the demo token ['demo-token'] and moves to
    [/dashboard] after a one second timer. *)
Definition loginPage_handleLogin (email password : string)
    (r : api_result LoginResponse) (b : browser) : browser :=
  let creds := JObj [("email", JStr email); ("password", JStr password)] in
  let b1 := api_call OpLogin (Some creds) login_response_token r b in
  match r with
  | ApiOk _ => navigate "/dashboard" b1
  | _ => navigate "/dashboard" (setItem_token "demo-token" b1)
  end.

Section LandingLogin.

(** [Number.prototype.toString], left abstract. *)
Variable number_to_string : Q -> string.

Fixpoint join_comma (l : list string) : string :=
  match l with
  | [] => ""
  | [x] => x
  | x :: rest => x ++ "," ++ join_comma rest
  end.

(** [String(v)], [None] being [undefined]. *)
Fixpoint js_String_json (v : json) : string :=
  match v with
  | JNull => "null"
  | JBool true => "true"
  | JBool false => "false"
  | JNum q => number_to_string q
  | JStr s => s
  | JArr l =>
      join_comma (map (fun x => match x with JNull => "" | _ => js_String_json x end) l)
  | JObj _ => "[object Object]"
  end.

Definition js_String (v : option json) : string :=
  match v with None => "undefined" | Some x => js_String_json x end.

(** [LandingPage.handleLogin], LandingPage.tsx lines 11-36: a bare
    form-encoded POST; on [response.ok] the body's [access_token] is
    stored (as [localStorage.setItem] coerces it) and the page moves to
    [/dashboard]; otherwise an alert. *)
Definition landing_handleLogin (username password : string) (r : fetch_result)
    (b : browser) : browser :=
  let b1 := issue (mkRequest "POST" (api_base ++ "auth/login") None
                     (Some (JObj [("username", JStr username);
                                  ("password", JStr password)]))) b in
  match r with
  | FetchNetworkFailure => alert "Login failed. Please try again." b1
  | FetchResponse status body =>
      if response_ok status then
        match body with
        | None => alert "Login failed. Please try again." b1
        | Some data =>
            match get_field data "access_token" with
            | Normal v => navigate "/dashboard" (setItem_token (js_String v) b1)
            | Throw _ => alert "Login failed. Please try again." b1
            end
        end
      else alert "Invalid credentials. Please try again." b1
  end.

End LandingLogin.

(* ================================================================= *)
(** ** Protected pages and their mount effects *)

(** The routed pages that show data views. *)
Inductive page :=
| DashboardPage     (** part_002: [/dashboard] *)
| AdminPage         (** appended to login/page.tsx: [/admin] *)
| AnalyticsPage     (** app/analytics/page.tsx *)
| EmployeesPage     (** app/employees/page.tsx *)
| PredictionsPage.  (** app/predictions/page.tsx *)

(** How the fetches started on mount settle. *)
Record mount_env := mkMountEnv {
  env_dashboard : api_result AnalyticsData;
  env_analytics : AnalyticsResults;
  env_employees : fetch_result;
  env_high_risk : api_result json;
  env_system_status : api_result json
}.

(** The mount effects of each page on the browser. [Dashboard] and
    [AdminPage] read the token first and redirect to [/landing] when it
    is missing (their child views are only rendered once
    [isAuthenticated] is set); the other three pages render their view
    directly, whose [useEffect] starts its fetch. *)
Definition mount_page (p : page) (env : mount_env) (b : browser) : browser :=
  match p with
  | DashboardPage =>
      match token b with
      | None => navigate "/landing" b
      | Some _ => api_call OpDashboardAnalytics None no_token (env_dashboard env) b
      end
  | AdminPage =>
      match token b with
      | None => navigate "/landing" b
      | Some _ => api_call OpSystemStatus None no_token (env_system_status env) b
      end
  | AnalyticsPage => analytics_requests (env_analytics env) b
  | EmployeesPage => snd (fetchEmployees (env_employees env) employees_initial b)
  | PredictionsPage =>
      snd (fetchHighRiskEmployees (env_high_risk env) predictions_initial b)
  end.

(* ================================================================= *)
(** ** HighRiskTable (part_006) *)



Section HighRiskTableRender.

(** [formatPercentage], [getRiskZoneColor] and [formatDateTime] of
    ['@/lib/utils'] (imported on line 4; the module is not among the
    sources), as applied to one row on lines 81-83, 91 and 103: they may
    return or throw. *)
Variable lib_utils : json -> completion unit.




End HighRiskTableRender.

(* ================================================================= *)
(** ** Percentage formatting: [(v * 100).toFixed(1) + '%'] *)

Definition digit_char (d : N) : ascii := ascii_of_N (48 + d).

(** Decimal digits of a natural number, no leading zeros ("0" for 0);
    [fuel] bounds the recursion. *)
Fixpoint digits_fuel (fuel : nat) (n : N) : list ascii :=
  match fuel with
  | O => []
  | S f =>
      if (n <? 10)%N then [digit_char n]
      else (digits_fuel f (n / 10)%N ++ [digit_char (n mod 10)%N])%list
  end.

Definition decimal_string (n : N) : list ascii := digits_fuel (S (N.to_nat n)) n.

(** Step 10 of [Number.prototype.toFixed] with [f = 1]: the integer [n]
    for which [n / 10 - x] is closest to zero, the larger one on a tie. *)
Definition toFixed_n (x : Q) : Z :=
  let lo := Qfloor (x * 10) in
  let hi := (lo + 1)%Z in
  let d_lo := Qabs (inject_Z lo / 10 - x) in
  let d_hi := Qabs (inject_Z hi / 10 - x) in
  if Qle_bool d_hi d_lo then hi else lo.

(** Steps 10.b-10.d with [f = 1]: the digits of [n], padded with a
    leading zero while there are at most [f] of them, and a decimal point
    before the last [f]. *)
Definition fixed_digits (n : Z) : list ascii :=
  let m := if (n =? 0)%Z then ["0"%char] else decimal_string (Z.to_N n) in
  let k := List.length m in
  let '(m, k) := if Nat.leb k 1 then ((List.repeat "0"%char (2 - k) ++ m)%list, 2%nat) else (m, k) in
  (firstn (k - 1) m ++ "."%char :: skipn (k - 1) m)%list.

(** Binary64 arithmetic. JavaScript numbers are IEEE 754 doubles: the
    result of [v * 100] is the exact product rounded to the nearest double,
    ties to the even significand. A double is [m * 2^e] with [|m| < 2^53]
    and [e >= -1074]. *)

(** [a / b] rounded to the nearest integer, ties to even ([0 < b]). *)
Definition Z_round_even (a b : Z) : Z :=
  let q := (a / b)%Z in
  let r := (a mod b)%Z in
  if (2 * r <? b)%Z then q
  else if (b <? 2 * r)%Z then (q + 1)%Z
  else if Z.even q then q else (q + 1)%Z.

(** Rounding of [n / d > 0]: [k = floor(log2(n / d))], the quantum
    [2^e] with [e = max(k - 52, -1074)], and the multiple of [2^e]
    nearest to [n / d]. *)
Definition b64_round_pos (n d : Z) : Q :=
  let k0 := (Z.log2 n - Z.log2 d)%Z in
  let k := if (if (0 <=? k0)%Z then (2 ^ k0 * d <=? n)%Z else (d <=? n * 2 ^ (- k0))%Z)
           then k0 else (k0 - 1)%Z in
  let e := Z.max (k - 52) (-1074) in
  if (0 <=? e)%Z then inject_Z (Z_round_even n (d * 2 ^ e) * 2 ^ e)
  else Z_round_even (n * 2 ^ (- e)) d # Z.to_pos (2 ^ (- e)).

(** The double nearest to [x], or [None] when the rounded magnitude
    reaches [2^1024] (an overflow to an infinity). *)
Definition b64_round (x : Q) : option Q :=
  let n := Qnum x in
  let d := Zpos (Qden x) in
  let r := if (0 <? n)%Z then b64_round_pos n d
           else if (n <? 0)%Z then - b64_round_pos (- n) d else 0 in
  if Qle_bool (inject_Z (2 ^ 1024)) (Qabs r) then None else Some r.

Section NumberFormat.

(** [Number::toString], used by [toFixed] only from [10^21] on. *)
Variable number_to_string : Q -> string.

(** [Number.prototype.toFixed(1)] on a finite number. *)
Definition toFixed1 (x : Q) : string :=
  let '(s, x) := if Qltb x 0 then ("-", - x) else ("", x) in
  if Qle_bool (inject_Z (10 ^ 21)) x then s ++ number_to_string x
  else s ++ string_of_list_ascii (fixed_digits (toFixed_n x)).

(** The double [v * 100] for the double [v] (given by its exact value),
    formatted by [toFixed(1)]; an infinite product prints as
    [Number::toString] has it. *)
Definition toFixed1_times100 (v : Q) : string :=
  match b64_round (v * 100) with
  | Some p => toFixed1 p
  | None => if Qltb (v * 100) 0 then "-Infinity" else "Infinity"
  end.

(** part_002 line 124 (and the department table, lines 227 and 231):
    [{(v * 100).toFixed(1)}%]. *)
Definition percent_dashboard (v : Q) : string :=
  toFixed1_times100 v ++ "%".

(** AnalyticsDashboard.tsx line 372:
    [{v ? (v * 100).toFixed(1) : '0.0'}%]. *)
Definition percent_analytics (v : Q) : string :=
  (if truthy (Some (JNum v)) then toFixed1_times100 v else "0.0") ++ "%".

End NumberFormat.

(** The claim's law: [round(v * 100, 1)] (half up), written with one
    decimal, then ["%"]. *)
Definition round1 (y : Q) : Z := Qfloor (y * 10 + (1 # 2)).

(** Distance from [y] to the nearest rounding tie of [round1] below or
    above it: the midpoint [(2 * floor(10 y) + 1) / 20]. *)
Definition tie_gap (y : Q) : Q := Qabs (y - inject_Z (2 * Qfloor (y * 10) + 1) / 20).

Definition percent_law (v : Q) : string :=
  let k := round1 (v * 100) in
  string_of_list_ascii
    (decimal_string (Z.to_N (k / 10)) ++ "."%char :: [digit_char (Z.to_N (k mod 10))])%list
  ++ "%".

(* ================================================================= *)
(** ** Every handler that runs against the shared browser state *)

(** The event handlers and mount effects of the source, each with the
    view state it runs in and the way its requests settle. *)
Inductive handler :=
| HLandingLogin (number_to_string : Q -> string) (username password : string)
    (r : fetch_result)
| HLoginPage (email password : string) (r : api_result LoginResponse)
| HLogout (r : api_result unit)
| HMount (p : page) (env : mount_env)
| HFetchAnalytics (s : AnalyticsState) (rs : AnalyticsResults)
| HFetchEmployees (s : EmployeesState) (r : fetch_result)
| HFetchEmployeeDetails (s : EmployeesState) (employeeId : string)
    (r1 r2 r3 : fetch_result)
| HCreateEmployee (s : EmployeesState) (now : string) (r r_list : fetch_result)
| HFetchHighRisk (s : PredictionsState) (r : api_result json)
| HFetchEmployeePredictions (s : PredictionsState) (empId : string)
    (r : fetch_result)
| HPredict (s : PredictionsState) (now iso : string) (mockProbability : Q)
    (r : api_result Prediction)
| HTrainModels (r : api_result json)        (** AdminDashboard.trainModels *)
| HFetchSystemStatus (r : api_result json). (** AdminDashboard.fetchSystemStatus *)

Definition run_handler (h : handler) (b : browser) : browser :=
  match h with
  | HLandingLogin nts u p r => landing_handleLogin nts u p r b
  | HLoginPage e p r => loginPage_handleLogin e p r b
  | HLogout r =>
      match handleLogout r b with Normal b' => b' | Throw _ => b end
  | HMount p env => mount_page p env b
  | HFetchAnalytics _ rs => analytics_requests rs b
  | HFetchEmployees s r => snd (fetchEmployees r s b)
  | HFetchEmployeeDetails s id r1 r2 r3 => snd (fetchEmployeeDetails id r1 r2 r3 s b)
  | HCreateEmployee s now r r' => snd (createEmployee now r r' s b)
  | HFetchHighRisk s r => snd (fetchHighRiskEmployees r s b)
  | HFetchEmployeePredictions s id r => snd (fetchEmployeePredictions id r s b)
  | HPredict s now iso p r => snd (predictTurnover now iso p r s b)
  | HTrainModels r => api_call OpTrainModels None no_token r b
  | HFetchSystemStatus r => api_call OpSystemStatus None no_token r b
  end.

Definition is_401 {A} (r : api_result A) : bool :=
  match r with ApiError 401 _ => true | _ => false end.

Definition analytics_saw_401 (rs : AnalyticsResults) : bool :=
  is_401 (r_dashboard rs) || is_401 (r_risk rs) || is_401 (r_dept rs)
  || is_401 (r_salary rs) || is_401 (r_satisfaction rs) || is_401 (r_project rs)
  || is_401 (r_clustering rs).

(** Whether a request of the handler came back 401 through the client. *)
Definition handler_saw_401 (h : handler) : bool :=
  match h with
  | HLoginPage _ _ r => is_401 r
  | HLogout r => is_401 r
  | HMount DashboardPage env => is_401 (env_dashboard env)
  | HMount AdminPage env => is_401 (env_system_status env)
  | HMount AnalyticsPage env => analytics_saw_401 (env_analytics env)
  | HMount EmployeesPage _ => false
  | HMount PredictionsPage env => is_401 (env_high_risk env)
  | HFetchAnalytics _ rs => analytics_saw_401 rs
  | HFetchHighRisk _ r => is_401 r
  | HPredict _ _ _ _ r => is_401 r
  | HTrainModels r => is_401 r
  | HFetchSystemStatus r => is_401 r
  | _ => false
  end.

Definition is_login (h : handler) : bool :=
  match h with HLandingLogin _ _ _ _ | HLoginPage _ _ _ => true | _ => false end.

Definition is_logout (h : handler) : bool :=
  match h with HLogout _ => true | _ => false end.

(** The browser of a first visit: nothing stored, nothing sent. *)
Definition fresh_browser : browser := mkBrowser None None [] [].

(** Whether any of the seven analytics calls failed. *)
Definition analytics_any_failed (rs : AnalyticsResults) : bool :=
  api_failed (r_dashboard rs) || api_failed (r_risk rs) || api_failed (r_dept rs)
  || api_failed (r_salary rs) || api_failed (r_satisfaction rs)
  || api_failed (r_project rs) || api_failed (r_clustering rs).


(* ================================================================= *)
(** ** JavaScript string operations used by the views

    A Rocq [string] is read as a sequence of UTF-16 code units below
    256 (Latin-1). *)

(** [s.startsWith(p)]. *)
Fixpoint js_startsWith (s p : string) : bool :=
  match p, s with
  | EmptyString, _ => true
  | String c p', String c' s' => Ascii.eqb c c' && js_startsWith s' p'
  | String _ _, EmptyString => false
  end.

(** [s.includes(p)]: [p] starts at some position of [s]. *)
Fixpoint js_includes (s p : string) : bool :=
  js_startsWith s p
  || match s with EmptyString => false | String _ s' => js_includes s' p end.

(** Lower case of one code unit: [A-Z] and the Latin-1 capitals
    [U+00C0-U+00DE] (but [U+00D7]) move up by 32; every other unit below
    256 is its own lower case. *)
Definition lower_char (c : ascii) : ascii :=
  let n := nat_of_ascii c in
  if (Nat.leb 65 n && Nat.leb n 90)
     || (Nat.leb 192 n && Nat.leb n 222 && negb (Nat.eqb n 215))
  then ascii_of_nat (n + 32)%nat else c.

(** [s.toLowerCase()]. *)
Fixpoint js_toLowerCase (s : string) : string :=
  match s with
  | EmptyString => EmptyString
  | String c s' => String (lower_char c) (js_toLowerCase s')
  end.

(** [s.replace(p, r)] for a one-character pattern [p] and a replacement
    [r] with no [$]: only the first occurrence of [p] is replaced. *)
Fixpoint js_replace_char (s : string) (p r : ascii) : string :=
  match s with
  | EmptyString => EmptyString
  | String c s' => if Ascii.eqb c p then String r s' else String c (js_replace_char s' p r)
  end.

(** Occurrences of a character, to state what [replace] leaves. *)
Fixpoint count_char (s : string) (c : ascii) : nat :=
  match s with
  | EmptyString => 0
  | String c' s' => (if Ascii.eqb c' c then 1 else 0) + count_char s' c
  end.

(** [[...new Set(l)]] on strings: first occurrences, in order. *)
Definition js_Set_values (l : list string) : list string :=
  fold_left (fun acc x => if existsb (String.eqb x) acc then acc else (acc ++ [x])%list) l [].

(* ================================================================= *)
(** ** EmployeesDashboard: the list tab's filters (lines 269-279) *)

Section EmployeeFilter.

(** An employee as the filter reads it: its [employee_id],
    [department] and [salary] strings. *)
Variable E : Type.
Variables (employee_id department salary : E -> string).

(** The predicate of [employees.filter(...)], lines 269-276. *)
Definition matchesFilters (searchTerm filterDepartment filterSalary : string) (e : E)
  : bool :=
  let matchesSearch :=
    js_includes (js_toLowerCase (employee_id e)) (js_toLowerCase searchTerm)
    || js_includes (js_toLowerCase (department e)) (js_toLowerCase searchTerm) in
  let matchesDepartment :=
    String.eqb filterDepartment "" || String.eqb (department e) filterDepartment in
  let matchesSalary :=
    String.eqb filterSalary "" || String.eqb (salary e) filterSalary in
  matchesSearch && matchesDepartment && matchesSalary.

Definition filteredEmployees (employees : list E)
    (searchTerm filterDepartment filterSalary : string) : list E :=
  filter (matchesFilters searchTerm filterDepartment filterSalary) employees.

(** The options of the two filter selects, lines 278-279. *)
Definition departments (employees : list E) : list string :=
  js_Set_values (map department employees).

Definition salaryLevels (employees : list E) : list string :=
  js_Set_values (map salary employees).

End EmployeeFilter.

Arguments matchesFilters {E} employee_id department salary.
Arguments filteredEmployees {E} employee_id department salary.
Arguments departments {E} department.
Arguments salaryLevels {E} salary.

(* ================================================================= *)
(** ** PredictionsDashboard: zone labels, assessment text, refresh *)

Module PredictionsView.

(** [getRiskColor], lines 214-226. *)
Definition getRiskColor (risk : string) : string :=
  if js_includes risk "Safe Zone" || js_includes risk "Green" then "bg-green-100 text-green-800"
  else if js_includes risk "Low Risk" || js_includes risk "Yellow" then "bg-yellow-100 text-yellow-800"
  else if js_includes risk "Medium Risk" || js_includes risk "Orange" then "bg-orange-100 text-orange-800"
  else if js_includes risk "High Risk" || js_includes risk "Red" then "bg-red-100 text-red-800"
  else "bg-gray-100 text-gray-800".

(** [getShortRiskZone], lines 228-240. *)
Definition getShortRiskZone (risk : string) : string :=
  if js_includes risk "Safe Zone" || js_includes risk "Green" then "SAFE"
  else if js_includes risk "Low Risk" || js_includes risk "Yellow" then "LOW"
  else if js_includes risk "Medium Risk" || js_includes risk "Orange" then "MEDIUM"
  else if js_includes risk "High Risk" || js_includes risk "Red" then "HIGH"
  else "UNKNOWN".






(** The Risk Assessment paragraph, lines 476-479: four
    [{zone === ... && '...'}] children; a [false] child renders nothing. *)
Definition risk_assessment (risk_zone : string) : list string :=
  (if String.eqb risk_zone "low"
   then ["This employee has a low risk of leaving. Continue current engagement strategies."] else [])
  ++ (if String.eqb risk_zone "medium"
      then ["This employee has a moderate risk of leaving. Consider proactive retention measures."] else [])
  ++ (if String.eqb risk_zone "high"
      then ["This employee has a high risk of leaving. Immediate retention action recommended."] else [])
  ++ (if String.eqb risk_zone "critical"
      then ["This employee has a critical risk of leaving. Urgent intervention required."] else []).

End PredictionsView.

(** [refreshAllData], lines 101-126: sets [loading], awaits
    [fetchHighRiskEmployees()], then [predictTurnover()] when a prediction
    result is shown, then [fetchEmployeePredictions(employeeId)] when the
    [employeeId] input is not empty, and clears [loading] in [finally]
    (none of the three throws: each catches its own errors). [r_high],
    [r_pred] and [r_hist] are how their calls settle; [now], [iso] and
    [mockProbability] feed [predictTurnover]. *)
Definition refreshAllData (employeeId : string) (r_high : api_result json)
    (now iso : string) (mockProbability : Q) (r_pred : api_result Prediction)
    (r_hist : fetch_result) (s : PredictionsState) (b : browser)
  : PredictionsState * browser :=
  let s0 := set_p_loading true s in
  let '(s1, b1) := fetchHighRiskEmployees r_high s0 b in
  let '(s2, b2) :=
    match predictionResult s1 with
    | Some _ => predictTurnover now iso mockProbability r_pred s1 b1
    | None => (s1, b1)
    end in
  let '(s3, b3) :=
    if String.eqb employeeId "" then (s2, b2)
    else fetchEmployeePredictions employeeId r_hist s2 b2 in
  (set_p_loading false s3, b3).

(** [Navigation]'s links and [isActive], PredictionsDashboard.tsx lines
    696-708. *)
Definition navigation_items : list (string * string) :=
  [("Dashboard", "/"); ("Employees", "/employees"); ("Analytics", "/analytics");
   ("Admin", "/admin")].

Definition isActive (pathname href : string) : bool :=
  if String.eqb href "/" then String.eqb pathname "/"
  else js_startsWith pathname href.

Definition active_items (pathname : string) : list (string * string) :=
  filter (fun item => isActive pathname (snd item)) navigation_items.

(* ================================================================= *)
(** ** Turnover-rate colour bands and the department table body *)

(** The three colours of a rate badge or bar. *)
Inductive rate_band := BandGreen | BandYellow | BandRed.

(** [rate > 0.25 ? red : rate > 0.15 ? yellow : green], written alike in
    part_002 line 222-226 and AnalyticsDashboard.tsx lines 433-435,
    498-500, 530-532, 562-564, 609-611 and 651-653. *)
Definition rate_band_of (rate : Q) : rate_band :=
  if Qltb (25 # 100) rate then BandRed
  else if Qltb (15 # 100) rate then BandYellow
  else BandGreen.

Definition band_rank (b : rate_band) : nat :=
  match b with BandGreen => 0 | BandYellow => 1 | BandRed => 2 end.

(** A row of the Dashboard Overview's department table body. *)
Inductive dept_tbody_row :=
| DeptRow (dept : json)
| NoDepartmentData.   (** "No department data available" *)

(** AnalyticsDashboard.tsx lines 420-450:
    [analyticsData?.department_stats?.map(row) || (<tr>No department
    data available</tr>)]; [None] is [undefined]. A value other than an
    array, [null] or [undefined] has no [map] method. *)
Definition department_tbody (department_stats : option json)
  : completion (list dept_tbody_row) :=
  match department_stats with
  | None | Some JNull => Normal [NoDepartmentData]
  | Some (JArr l) => Normal (map DeptRow l)
  | Some _ => Throw "TypeError: department_stats.map is not a function"
  end.

(* ================================================================= *)
(** ** Dashboard page (part_002): authentication check and stats *)

Record DashboardState := mkDashboardState {
  activeView : string;
  dashboardStats : option AnalyticsData;
  d_loading : bool;
  isAuthenticated : bool
}.

Definition dashboard_initial : DashboardState :=
  mkDashboardState "overview" None true false.

Definition set_dashboardStats (v : AnalyticsData) (s : DashboardState) : DashboardState :=
  mkDashboardState (activeView s) (Some v) (d_loading s) (isAuthenticated s).

Definition set_d_loading (l : bool) (s : DashboardState) : DashboardState :=
  mkDashboardState (activeView s) (dashboardStats s) l (isAuthenticated s).

Definition set_isAuthenticated (a : bool) (s : DashboardState) : DashboardState :=
  mkDashboardState (activeView s) (dashboardStats s) (d_loading s) a.

(** [fetchDashboardStats], lines 46-56: no fallback data in [catch]. *)
Definition fetchDashboardStats (r : api_result AnalyticsData) (s : DashboardState)
    (b : browser) : DashboardState * browser :=
  let s1 := set_d_loading true s in
  let b1 := api_call OpDashboardAnalytics None no_token r b in
  let s2 := match r with ApiOk data => set_dashboardStats data s1 | _ => s1 end in
  (set_d_loading false s2, b1).

(** The mount effect, lines 34-44: [if (!token)] redirects, so an empty
    stored string counts as no token. *)
Definition dashboard_mount (r : api_result AnalyticsData) (s : DashboardState)
    (b : browser) : DashboardState * browser :=
  if truthy (option_map JStr (token b)) then
    fetchDashboardStats r (set_isAuthenticated true s) b
  else (s, navigate "/landing" b).

(** The quick-stats cards and the department overview are rendered
    under [{dashboardStats && (...)}] (lines 80, 185) in the [default]
    branch of [renderActiveView] (lines 58-68), once [isAuthenticated] is
    set and [loading] is false (lines 267, 319). *)
Definition dashboard_shows_stats (s : DashboardState) : bool :=
  isAuthenticated s && negb (d_loading s)
  && negb (existsb (String.eqb (activeView s))
             ["analytics"; "employees"; "predictions"; "admin"])
  && match dashboardStats s with Some _ => true | None => false end.

(* ================================================================= *)
(** ** AdminDashboard (part_007) *)

Module AdminView.

(** [getHealthColor], lines 99-106. *)
Definition getHealthColor (health : string) : string :=
  if String.eqb health "healthy" then "text-green-600 bg-green-100"
  else if String.eqb health "warning" then "text-yellow-600 bg-yellow-100"
  else if String.eqb health "critical" then "text-red-600 bg-red-100"
  else "text-gray-600 bg-gray-100".

(** [getStatusColor], lines 108-119. *)
Definition getStatusColor (status : string) : string :=
  let s := js_toLowerCase status in
  if String.eqb s "online" || String.eqb s "healthy" || String.eqb s "active"
  then "text-green-600 bg-green-100"
  else if String.eqb s "warning" then "text-yellow-600 bg-yellow-100"
  else if String.eqb s "offline" || String.eqb s "error" || String.eqb s "critical"
  then "text-red-600 bg-red-100"
  else "text-gray-600 bg-gray-100".

End AdminView.

Record AdminState := mkAdminState {
  systemStatus : json;        (** [null] until set *)
  trainingResult : json;
  ad_loading : bool;
  trainingInProgress : bool
}.

Definition admin_initial : AdminState := mkAdminState JNull JNull false false.

(** The demo status of [fetchSystemStatus]'s [catch], lines 50-60. *)
Definition demo_systemStatus : json :=
  JObj [("status", JStr "online"); ("version", JStr "1.0.0");
        ("uptime", JStr "2 days, 5 hours"); ("database_status", JStr "healthy");
        ("ml_models_status", JStr "loaded");
        ("last_model_training", JStr "2024-01-01T00:00:00Z");
        ("total_employees", JNum 14999); ("total_predictions", JNum 2500);
        ("system_health", JStr "healthy")].

(** The demo training result of [trainModels]' [catch], lines 82-93. *)
Definition demo_trainingResult (iso : string) : json :=
  JObj [("status", JStr "completed");
        ("message", JStr "Models trained successfully with latest data");
        ("models_trained", JArr [JStr "logistic_regression"; JStr "random_forest";
                                 JStr "gradient_boosting"]);
        ("training_duration", JStr "2 minutes 34 seconds");
        ("accuracy_scores", JObj [("logistic_regression", JNum (85 # 100));
                                  ("random_forest", JNum (92 # 100));
                                  ("gradient_boosting", JNum (89 # 100))]);
        ("timestamp", JStr iso)].

(** The admin view's asynchronous steps. [fetchSystemStatus] (mount,
    the Refresh Status button, or the timer [trainModels] sets after a
    success) is a [FetchStatusStart] followed, later, by its
    [FetchStatusSettle]; [trainModels] is a [TrainStart] and its
    [TrainSettle]. Other steps may run in between. *)
Inductive admin_event :=
| FetchStatusStart
| FetchStatusSettle (r : api_result json)
| TrainStart
| TrainSettle (r : api_result json) (iso : string).

Definition admin_step (e : admin_event) (sb : AdminState * browser)
  : AdminState * browser :=
  let '(s, b) := sb in
  match e with
  | FetchStatusStart =>
      (mkAdminState (systemStatus s) (trainingResult s) true (trainingInProgress s),
       issue (api_request OpSystemStatus None b) b)
  | FetchStatusSettle r =>
      let st := match r with ApiOk data => data | _ => demo_systemStatus end in
      (mkAdminState st (trainingResult s) false (trainingInProgress s),
       api_settle OpSystemStatus no_token r b)
  | TrainStart =>
      (mkAdminState (systemStatus s) (trainingResult s) (ad_loading s) true,
       issue (api_request OpTrainModels None b) b)
  | TrainSettle r iso =>
      let tr := match r with ApiOk data => data | _ => demo_trainingResult iso end in
      (mkAdminState (systemStatus s) tr (ad_loading s) false,
       api_settle OpTrainModels no_token r b)
  end.

Definition admin_run (es : list admin_event) (sb : AdminState * browser)
  : AdminState * browser :=
  fold_left (fun acc e => admin_step e acc) es sb.

(** Lines 121-127: the whole view is replaced by "Loading system
    status..." while [loading && !systemStatus]. *)
Definition admin_placeholder (s : AdminState) : bool :=
  ad_loading s && negb (truthy (Some (systemStatus s))).

(** A step that starts [fetchSystemStatus]. *)
Definition is_status_start (e : admin_event) : bool :=
  match e with FetchStatusStart => true | _ => false end.

(** The System Health card, lines 149-167, inside [{systemStatus && ...}]:
    the dot's class, the label's class and the label. The label is
    [system_health || 'Unknown'], its class
    [getHealthColor(system_health || 'critical')]; a [switch] on a
    non-string value falls to [default]. *)
Definition health_card (systemStatus : json) : completion (string * string * json) :=
  match get_field systemStatus "system_health" with
  | Throw e => Throw e
  | Normal h =>
      let dot :=
        match h with
        | Some (JStr v) =>
            if String.eqb v "healthy" then "bg-green-500"
            else if String.eqb v "warning" then "bg-yellow-500"
            else "bg-red-500"
        | _ => "bg-red-500"
        end in
      let cls :=
        match js_or h (JStr "critical") with
        | JStr v => AdminView.getHealthColor v
        | _ => "text-gray-600 bg-gray-100"
        end in
      Normal (dot, cls, js_or h (JStr "Unknown"))
  end.

(* ================================================================= *)
(** ** Department label of the High Risk Table (part_006 line 71) *)

(** [employee.department.replace('_', ' ')]; EmployeesDashboard.tsx
    line 578 writes [strategy.status.replace('_', ' ')] alike. *)
Definition department_label (department : string) : string :=
  js_replace_char department "_" " ".

(* ================================================================= *)
(** * Properties *)

(** ** The token slot under each building block *)

(** Case split on how each [fetch] settles and on the fields read from
    the bodies. *)
Ltac split_fetches :=
  repeat match goal with
         | r : fetch_result |- _ => destruct r as [|? [?|]]
         end;
  cbn;
  repeat match goal with
         | |- context [get_field ?j ?f] => destruct (get_field j f)
         | |- context [response_ok ?st] => destruct (response_ok st)
         end;
  cbn.

Lemma token_issue : forall r b, token (issue r b) = token b.
Proof. reflexivity. Qed.

Lemma token_navigate : forall u b, token (navigate u b) = token b.
Proof. reflexivity. Qed.

Lemma token_alert : forall m b, token (alert m b) = token b.
Proof. reflexivity. Qed.

Lemma api_settle_no_token : forall A op (r : api_result A) b,
  token (api_settle op no_token r b) = if is_401 r then None else token b.
Proof.
  intros A op r b. destruct r as [a|st msg|]; simpl.
  - destruct op; reflexivity.
  - destruct st as [|p|p]; try reflexivity.
    repeat (destruct p as [p|p|]; try reflexivity).
  - reflexivity.
Qed.

Lemma api_call_no_token : forall A op body (r : api_result A) b,
  token (api_call op body no_token r b) = if is_401 r then None else token b.
Proof. intros. unfold api_call. rewrite api_settle_no_token. reflexivity. Qed.

Lemma analytics_requests_token : forall rs b,
  token (analytics_requests rs b) = if analytics_saw_401 rs then None else token b.
Proof.
  intros rs b. unfold analytics_requests, analytics_saw_401.
  rewrite !api_settle_no_token.
  assert (I : token (fold_left (fun b op => issue (api_request op None b) b)
                               analytics_ops b) = token b) by reflexivity.
  rewrite I.
  destruct (is_401 (r_dashboard rs)), (is_401 (r_risk rs)), (is_401 (r_dept rs)),
    (is_401 (r_salary rs)), (is_401 (r_satisfaction rs)), (is_401 (r_project rs)),
    (is_401 (r_clustering rs)); reflexivity.
Qed.

(** The views' direct [fetch] calls never write the token slot. *)
Lemma fetchEmployees_token : forall r s b,
  token (snd (fetchEmployees r s b)) = token b.
Proof. intros. unfold fetchEmployees. reflexivity. Qed.

Lemma fetchEmployeeDetails_token : forall id r1 r2 r3 s b,
  token (snd (fetchEmployeeDetails id r1 r2 r3 s b)) = token b.
Proof. intros. unfold fetchEmployeeDetails. split_fetches; reflexivity. Qed.

Lemma createEmployee_token : forall now r r' s b,
  token (snd (createEmployee now r r' s b)) = token b.
Proof. intros. unfold createEmployee, fetchEmployees. split_fetches; reflexivity. Qed.

Lemma fetchEmployeePredictions_token : forall id r s b,
  token (snd (fetchEmployeePredictions id r s b)) = token b.
Proof. intros. unfold fetchEmployeePredictions. reflexivity. Qed.

(** ** Decimal strings and [toFixed] rounding *)

Lemma digits_fuel_indep : forall f g n,
  (N.to_nat n < f)%nat -> (N.to_nat n < g)%nat -> digits_fuel f n = digits_fuel g n.
Proof.
  induction f as [|f IH]; intros g n Hf Hg; [lia|].
  destruct g as [|g]; [lia|]. simpl.
  destruct (n <? 10)%N eqn:E; [reflexivity|].
  apply N.ltb_ge in E.
  assert (Hd : (n / 10 < n)%N) by (apply N.div_lt; lia).
  rewrite (IH g); [reflexivity| |]; lia.
Qed.

Lemma decimal_string_small : forall n, (n < 10)%N -> decimal_string n = [digit_char n].
Proof.
  intros n H. unfold decimal_string. simpl.
  apply N.ltb_lt in H. now rewrite H.
Qed.

Lemma decimal_string_step : forall n, (10 <= n)%N ->
  decimal_string n = (decimal_string (n / 10) ++ [digit_char (n mod 10)])%list.
Proof.
  intros n H. unfold decimal_string at 1. simpl.
  assert (E : (n <? 10)%N = false) by (apply N.ltb_ge; lia). rewrite E.
  f_equal. apply digits_fuel_indep.
  - assert (Hd : (n / 10 < n)%N) by (apply N.div_lt; lia). lia.
  - lia.
Qed.

Lemma decimal_string_nonempty : forall n, decimal_string n <> [].
Proof.
  intros n. destruct (N.lt_ge_cases n 10) as [H|H].
  - rewrite decimal_string_small by exact H. discriminate.
  - rewrite decimal_string_step by exact H. destruct (decimal_string (n/10)); discriminate.
Qed.

Lemma fixed_digits_split : forall n, (0 <= n)%Z ->
  fixed_digits n =
  (decimal_string (Z.to_N (n / 10)) ++ "."%char :: [digit_char (Z.to_N (n mod 10))])%list.
Proof.
  intros n Hn. unfold fixed_digits.
  destruct (Z.eqb_spec n 0) as [->|Hn0].
  { reflexivity. }
  destruct (Z.lt_ge_cases n 10) as [Hs|Hb].
  - rewrite decimal_string_small by lia. simpl.
    rewrite Z.div_small by lia. rewrite Z.mod_small by lia. reflexivity.
  - rewrite decimal_string_step by lia.
    rewrite Z2N.inj_div, Z2N.inj_mod by lia. simpl (Z.to_N 10).
    set (D := decimal_string (Z.to_N n / 10)).
    set (d := digit_char (Z.to_N n mod 10)).
    assert (HD : D <> []) by apply decimal_string_nonempty.
    assert (Hlen : (2 <= List.length (D ++ [d]))%nat).
    { rewrite length_app. destruct D; [congruence|]. simpl. lia. }
    assert (E : Nat.leb (List.length (D ++ [d])) 1 = false) by (apply Nat.leb_gt; lia).
    cbv zeta. rewrite E. cbv beta iota.
    replace (List.length (D ++ [d]) - 1)%nat with (List.length D)
      by (rewrite length_app; simpl; lia).
    rewrite firstn_app, skipn_app, firstn_all, skipn_all, Nat.sub_diag.
    rewrite firstn_O, skipn_O, app_nil_r. reflexivity.
Qed.

Lemma Qfloor_unique : forall q z,
  inject_Z z <= q -> q < inject_Z z + 1 -> Qfloor q = z.
Proof.
  intros q z H1 H2.
  pose proof (Qfloor_le q) as F1. pose proof (Qlt_floor q) as F2.
  rewrite inject_Z_plus in F2.
  assert (A : (z < Qfloor q + 1)%Z).
  { rewrite Zlt_Qlt, inject_Z_plus. eapply Qle_lt_trans; eauto. }
  assert (B : (Qfloor q < z + 1)%Z).
  { rewrite Zlt_Qlt, inject_Z_plus. eapply Qle_lt_trans; eauto. }
  lia.
Qed.

Lemma toFixed_n_round : forall x, 0 <= x -> toFixed_n x = round1 x.
Proof.
  intros x Hx. unfold toFixed_n, round1.
  set (lo := Qfloor (x * 10)).
  pose proof (Qfloor_le (x * 10)) as F1. pose proof (Qlt_floor (x * 10)) as F2.
  fold lo in F1, F2. rewrite inject_Z_plus in F2. change (inject_Z 1) with 1 in F2.
  rewrite inject_Z_plus. change (inject_Z 1) with 1.
  set (L := inject_Z lo) in *.
  assert (A1 : Qabs (L / 10 - x) == x - L * (1 # 10)).
  { rewrite Qabs_neg; unfold Qdiv; change (/ 10) with (1 # 10); [ring|lra]. }
  assert (A2 : Qabs ((L + 1) / 10 - x) == (L + 1) * (1 # 10) - x).
  { rewrite Qabs_pos; unfold Qdiv; change (/ 10) with (1 # 10); [reflexivity|lra]. }
  destruct (Qle_bool (Qabs ((L + 1) / 10 - x)) (Qabs (L / 10 - x))) eqn:E.
  - apply Qle_bool_iff in E. rewrite A1, A2 in E.
    symmetry. apply Qfloor_unique; rewrite inject_Z_plus; change (inject_Z 1) with 1;
      fold L; lra.
  - assert (E' : ~ (Qabs ((L + 1) / 10 - x) <= Qabs (L / 10 - x))).
    { intro C. apply Qle_bool_iff in C. congruence. }
    rewrite A1, A2 in E'.
    symmetry. apply Qfloor_unique; fold L; lra.
Qed.

Lemma round1_nonneg : forall y, 0 <= y -> (0 <= round1 y)%Z.
Proof.
  intros y Hy. unfold round1.
  change 0%Z with (Qfloor 0). apply Qfloor_resp_le. lra.
Qed.

Lemma toFixed1_small : forall nts x, 0 <= x -> x <= 101 ->
  toFixed1 nts x = string_of_list_ascii
    (decimal_string (Z.to_N (round1 x / 10)) ++ "."%char
       :: [digit_char (Z.to_N (round1 x mod 10))])%list.
Proof.
  intros nts x H0 H1. unfold toFixed1, Qltb.
  replace (Qle_bool 0 x) with true by (symmetry; apply Qle_bool_iff; exact H0).
  simpl negb. cbv iota beta.
  replace (Qle_bool (inject_Z (10 ^ 21)) x) with false.
  2:{ symmetry. apply not_true_iff_false. rewrite Qle_bool_iff.
      intro C. assert (C' : inject_Z (10 ^ 21) <= 101) by (eapply Qle_trans; eauto).
      vm_compute in C'. apply C'. reflexivity. }
  simpl String.append.
  rewrite toFixed_n_round by exact H0.
  rewrite fixed_digits_split by (apply round1_nonneg; exact H0).
  reflexivity.
Qed.

(** ** Rounding to the nearest double *)

Lemma Z_round_even_spec : forall a b, (0 < b)%Z ->
  (- b <= 2 * (b * Z_round_even a b - a) <= b)%Z.
Proof.
  intros a b Hb. unfold Z_round_even.
  pose proof (Z.div_mod a b ltac:(lia)) as D.
  pose proof (Z.mod_pos_bound a b Hb) as M.
  set (q := (a / b)%Z) in *. set (r := (a mod b)%Z) in *.
  destruct (2 * r <? b)%Z eqn:E1; [apply Z.ltb_lt in E1; lia|apply Z.ltb_ge in E1].
  destruct (b <? 2 * r)%Z eqn:E2; [apply Z.ltb_lt in E2; lia|apply Z.ltb_ge in E2].
  destruct (Z.even q); lia.
Qed.

Lemma log2_gap : forall n d, (0 < n)%Z -> (0 < d)%Z -> (n <= 100 * d)%Z ->
  (Z.log2 n - Z.log2 d <= 7)%Z.
Proof.
  intros n d Hn Hd H.
  destruct (Z.log2_spec n Hn) as [A1 _]. destruct (Z.log2_spec d Hd) as [_ B2].
  pose proof (Z.log2_nonneg d).
  destruct (Z_le_gt_dec (Z.log2 n - Z.log2 d) 7) as [L|L]; [exact L|exfalso].
  assert (P : (2 ^ 8 * 2 ^ Z.log2 d <= 2 ^ Z.log2 n)%Z).
  { rewrite <- Z.pow_add_r by lia. apply Z.pow_le_mono_r; lia. }
  rewrite Z.pow_succ_r in B2 by lia.
  assert (2 ^ 8 = 256)%Z as E by reflexivity. rewrite E in P. lia.
Qed.

Lemma b64_round_pos_small : forall n d, (0 < n)%Z -> (0 < d)%Z -> (n <= 100 * d)%Z ->
  exists m s, b64_round_pos n d = m # Z.to_pos (2 ^ s)
    /\ (45 <= s)%Z /\ (- d <= 2 * (d * m - n * 2 ^ s) <= d)%Z.
Proof.
  intros n d Hn Hd H. unfold b64_round_pos.
  pose proof (log2_gap n d Hn Hd H) as G.
  set (k0 := (Z.log2 n - Z.log2 d)%Z) in *.
  set (k := if (if (0 <=? k0)%Z then (2 ^ k0 * d <=? n)%Z else (d <=? n * 2 ^ (- k0))%Z)
            then k0 else (k0 - 1)%Z).
  assert (Hk : (k <= k0)%Z).
  { unfold k. destruct (if (0 <=? k0)%Z then _ else _); lia. }
  clearbody k.
  set (e := Z.max (k - 52) (-1074)).
  assert (He : (e <= -45)%Z) by (unfold e; lia).
  replace (0 <=? e)%Z with false by (symmetry; apply Z.leb_gt; lia).
  exists (Z_round_even (n * 2 ^ (- e)) d), (- e)%Z. split; [reflexivity|]. split; [lia|].
  apply Z_round_even_spec. exact Hd.
Qed.

Lemma b64_round_small : forall x, 0 <= x -> x <= 100 ->
  exists p, b64_round x = Some p /\ 0 <= p /\ Qabs (p - x) <= 1 # 2 ^ 46.
Proof.
  intros [n d] H0 H1. unfold b64_round. cbn [Qnum Qden].
  unfold Qle in H0, H1. cbn [Qnum Qden] in H0, H1.
  destruct (0 <? n)%Z eqn:En.
  - apply Z.ltb_lt in En.
    destruct (b64_round_pos_small n (Zpos d) En ltac:(lia) ltac:(lia)) as [m [s [E [Hs B]]]].
    rewrite E.
    assert (Ps : (0 < 2 ^ s)%Z) by (apply Z.pow_pos_nonneg; lia).
    assert (P45 : (2 ^ 45 <= 2 ^ s)%Z) by (apply Z.pow_le_mono_r; lia).
    assert (Hm : (0 <= m)%Z) by nia.
    assert (Hp : 0 <= m # Z.to_pos (2 ^ s)).
    { unfold Qle. cbn [Qnum Qden]. lia. }
    assert (Herr : Qabs ((m # Z.to_pos (2 ^ s)) - (n # d)) <= 1 # 2 ^ 46).
    { unfold Qminus, Qplus, Qopp, Qabs, Qle. cbn [Qnum Qden].
      rewrite Pos2Z.inj_mul, Z2Pos.id by exact Ps.
      change (Zpos (2 ^ 46)) with (2 ^ 46)%Z.
      assert (E46 : (2 ^ 46 = 2 * 2 ^ 45)%Z) by reflexivity.
      rewrite E46.
      replace (m * Z.pos d + - n * 2 ^ s)%Z with (Z.pos d * m - n * 2 ^ s)%Z by ring.
      nia. }
    assert (Hov : Qle_bool (inject_Z (2 ^ 1024)) (Qabs (m # Z.to_pos (2 ^ s))) = false).
    { apply not_true_iff_false. rewrite Qle_bool_iff. intro C.
      rewrite Qabs_pos in C by exact Hp.
      apply Qabs_Qle_condition in Herr as [_ Herr].
      assert (C2 : inject_Z (2 ^ 1024) <= 101).
      { eapply Qle_trans; [exact C|].
        assert (X : n # d <= 100) by (unfold Qle; cbn; lia).
        assert (Y : 1 # 2 ^ 46 <= 1) by (unfold Qle; cbn; lia).
        lra. }
      unfold Qle in C2. cbn in C2. lia. }
    rewrite Hov. eexists. split; [reflexivity|]. split; assumption.
  - assert (n = 0)%Z as -> by (apply Z.ltb_ge in En; lia).
    cbn. eexists. split; [reflexivity|]. split; [apply Qle_refl|].
    unfold Qle; cbn; lia.
Qed.

(** [round1] does not move under an error smaller than the distance to
    the nearest tie. *)
Lemma round1_stable : forall x y,
  Qabs (y - x) <= 1 # 2 ^ 46 -> 1 # 2 ^ 46 < tie_gap x -> round1 y = round1 x.
Proof.
  intros x y Hyx Hg. unfold tie_gap in Hg. unfold round1.
  set (j := Qfloor (x * 10)) in *.
  pose proof (Qfloor_le (x * 10)) as F1. pose proof (Qlt_floor (x * 10)) as F2.
  fold j in F1, F2. rewrite inject_Z_plus in F2. clearbody j.
  rewrite inject_Z_plus, inject_Z_mult in Hg.
  apply Qabs_Qle_condition in Hyx as [Y1 Y2].
  assert (Ee : 0 < 1 # 2 ^ 46 /\ 1 # 2 ^ 46 <= 1 # 1000) by (split; unfold Qlt, Qle; cbn; lia).
  destruct Ee as [Ee1 Ee2].
  set (eps := 1 # 2 ^ 46) in *. clearbody eps.
  change (inject_Z 1) with 1 in *. change (inject_Z 2) with 2 in *.
  assert (Ht : (2 * inject_Z j + 1) / 20 * 20 == 2 * inject_Z j + 1) by field.
  set (t := (2 * inject_Z j + 1) / 20) in *. clearbody t.
  destruct (Qlt_le_dec x t) as [L|L].
  - rewrite Qabs_neg in Hg by lra.
    transitivity j.
    + apply Qfloor_unique; lra.
    + symmetry. apply Qfloor_unique; lra.
  - rewrite Qabs_pos in Hg by lra.
    transitivity (j + 1)%Z.
    + apply Qfloor_unique; rewrite inject_Z_plus; change (inject_Z 1) with 1; lra.
    + symmetry. apply Qfloor_unique; rewrite inject_Z_plus; change (inject_Z 1) with 1; lra.
Qed.

(** Off the ties, [(v * 100).toFixed(1)] on doubles is [round1] of the
    exact product. *)
Lemma toFixed1_times100_off_ties : forall nts v, 0 <= v <= 1 ->
  1 # 2 ^ 46 < tie_gap (v * 100) ->
  toFixed1_times100 nts v = string_of_list_ascii
    (decimal_string (Z.to_N (round1 (v * 100) / 10)) ++ "."%char
       :: [digit_char (Z.to_N (round1 (v * 100) mod 10))])%list.
Proof.
  intros nts v [H0 H1] Hg. unfold toFixed1_times100.
  destruct (b64_round_small (v * 100) ltac:(lra) ltac:(lra)) as [p [E [P0 Perr]]].
  rewrite E.
  pose proof Perr as Perr'. apply Qabs_Qle_condition in Perr' as [_ Pu].
  assert (Ee : 1 # 2 ^ 46 <= 1) by (unfold Qle; cbn; lia).
  rewrite toFixed1_small by lra.
  rewrite (round1_stable (v * 100) p Perr Hg). reflexivity.
Qed.


(** ** Requests and locations under the client's settlement *)

Lemma api_settle_sent : forall A op lt (r : api_result A) b,
  sent (api_settle op lt r b) = sent b.
Proof.
  intros A op lt r b. destruct r as [a|st msg|]; simpl.
  - destruct op, (lt a); reflexivity.
  - destruct st as [|p|p]; try reflexivity.
    repeat (destruct p as [p|p|]; try reflexivity).
  - reflexivity.
Qed.

Lemma api_settle_href : forall A op lt (r : api_result A) b,
  href (api_settle op lt r b) = href b.
Proof.
  intros A op lt r b. destruct r as [a|st msg|]; simpl.
  - destruct op, (lt a); reflexivity.
  - destruct st as [|p|p]; try reflexivity.
    repeat (destruct p as [p|p|]; try reflexivity).
  - reflexivity.
Qed.

Lemma sent_issue : forall r b, sent (issue r b) = (sent b ++ [r])%list.
Proof. reflexivity. Qed.

Lemma href_issue : forall r b, href (issue r b) = href b.
Proof. reflexivity. Qed.

Lemma api_call_sent : forall A op body lt (r : api_result A) b,
  sent (api_call op body lt r b) = (sent b ++ [api_request op body b])%list
  /\ href (api_call op body lt r b) = href b.
Proof.
  intros. unfold api_call. rewrite api_settle_sent, api_settle_href. split; reflexivity.
Qed.

Lemma analytics_requests_sent : forall rs b,
  List.length (sent (analytics_requests rs b)) = (List.length (sent b) + 7)%nat
  /\ href (analytics_requests rs b) = href b.
Proof.
  intros rs b. unfold analytics_requests.
  rewrite !api_settle_sent, !api_settle_href.
  cbn [fold_left analytics_ops].
  rewrite !sent_issue, !href_issue, !length_app. simpl. split; [lia|reflexivity].
Qed.

(* ================================================================= *)
(** ** Claims *)

(** C1 (code defect). With nothing stored, mounting the Analytics,
    Employees or Predictions page sends its data requests and sets no
    redirect: only [Dashboard] and [AdminPage] read the token and go to
    [/landing] without fetching. *)
Theorem C1_unguarded_pages_fetch_without_token : forall env : mount_env,
  href (mount_page AnalyticsPage env fresh_browser) = None
  /\ List.length (sent (mount_page AnalyticsPage env fresh_browser)) = 7%nat
  /\ href (mount_page EmployeesPage env fresh_browser) = None
  /\ sent (mount_page EmployeesPage env fresh_browser)
     = [mkRequest "GET" employees_url (Some "Bearer null") None]
  /\ href (mount_page PredictionsPage env fresh_browser) = None
  /\ sent (mount_page PredictionsPage env fresh_browser)
     = [api_request OpHighRiskPredictions None fresh_browser]
  /\ mount_page DashboardPage env fresh_browser = navigate "/landing" fresh_browser
  /\ mount_page AdminPage env fresh_browser = navigate "/landing" fresh_browser.
Proof.
  intros env.
  destruct (analytics_requests_sent (env_analytics env) fresh_browser) as [L H].
  simpl mount_page. rewrite L, H.
  assert (P : forall b, snd (fetchHighRiskEmployees (env_high_risk env) predictions_initial b)
                        = api_call OpHighRiskPredictions None no_token (env_high_risk env) b).
  { intros b. unfold fetchHighRiskEmployees. destruct (env_high_risk env); reflexivity. }
  rewrite P. destruct (api_call_sent _ OpHighRiskPredictions None no_token
                         (env_high_risk env) fresh_browser) as [S1 S2].
  rewrite S1, S2.
  repeat split; reflexivity.
Qed.

(** C2, counterexample. The dashboard call fails, the risk-distribution
    call succeeds with live figures: the view still shows the demo risk
    distribution, not the live one. *)
Lemma C2_partial_failure_discards_live :
  riskDistribution
    (fetchAnalyticsData
       (mkAnalyticsResults NetworkError (ApiOk (mkRiskDistribution 10 20 30 40))
          (ApiOk []) (ApiOk []) (ApiOk []) (ApiOk []) (ApiOk []))
       analytics_initial)
  <> Some (mkRiskDistribution 10 20 30 40).
Proof. simpl. intro H. inversion H. Qed.

(** C2, as the code does it. The seven analytics calls are joined with
    [Promise.all]: if any of them fails, all seven resources take their
    demo datasets (live results of the others are dropped); when all
    succeed, all seven take the live values. Loading ends false either
    way. *)
Theorem C2_fanout_all_or_nothing :
  (forall rs s, analytics_any_failed rs = true ->
     fetchAnalyticsData rs s = analytics_demo_state)
  /\ (forall d r de sa sat pr cl s,
        fetchAnalyticsData
          (mkAnalyticsResults (ApiOk d) (ApiOk r) (ApiOk de) (ApiOk sa)
             (ApiOk sat) (ApiOk pr) (ApiOk cl)) s
        = mkAnalyticsState (Some d) (Some r) de sa sat pr cl false).
Proof.
  split.
  - intros [r1 r2 r3 r4 r5 r6 r7] s H. unfold fetchAnalyticsData, promise_all7.
    simpl. unfold analytics_any_failed in H. simpl in H.
    destruct r1, r2, r3, r4, r5, r6, r7; try reflexivity; discriminate H.
  - reflexivity.
Qed.

Lemma C2_fanout_all_or_nothing_witness :
  analytics_any_failed
    (mkAnalyticsResults NetworkError (ApiOk (mkRiskDistribution 10 20 30 40))
       (ApiOk []) (ApiOk []) (ApiOk []) (ApiOk []) (ApiOk [])) = true
  /\ fetchAnalyticsData
       (mkAnalyticsResults NetworkError (ApiOk (mkRiskDistribution 10 20 30 40))
          (ApiOk []) (ApiOk []) (ApiOk []) (ApiOk []) (ApiOk []))
       analytics_initial = analytics_demo_state.
Proof.
  split; [reflexivity|].
  apply (proj1 C2_fanout_all_or_nothing). reflexivity.
Defined.

(** C3, counterexample. [fetchEmployees] receives a 401: the stored
    token is still there afterwards. *)
Lemma C3_direct_fetch_401_keeps_token :
  token (snd (fetchEmployees
                (FetchResponse 401 (Some (JObj [("detail", JStr "Could not validate credentials")])))
                employees_initial (mkBrowser (Some "expired") None [] [])))
  = Some "expired".
Proof. reflexivity. Qed.

(** C3, as the code does it. A 401 through the shared API client leaves
    the token slot empty (the client's contract); the views' direct
    [fetch] calls ([fetchEmployees], [fetchEmployeeDetails],
    [createEmployee], [fetchEmployeePredictions]) never look at the
    status and leave the token slot as it was, whatever the response. *)
Theorem C3_401_clears_only_through_client :
  (forall A op body (lt : A -> option string) msg b,
     token (api_call op body lt (ApiError 401 msg) b) = None)
  /\ (forall r s b, token (snd (fetchEmployees r s b)) = token b)
  /\ (forall id r1 r2 r3 s b,
        token (snd (fetchEmployeeDetails id r1 r2 r3 s b)) = token b)
  /\ (forall now r r' s b, token (snd (createEmployee now r r' s b)) = token b)
  /\ (forall id r s b, token (snd (fetchEmployeePredictions id r s b)) = token b).
Proof.
  split; [intros; reflexivity|].
  split; [exact fetchEmployees_token|].
  split; [exact fetchEmployeeDetails_token|].
  split; [exact createEmployee_token|].
  exact fetchEmployeePredictions_token.
Qed.

(** C4 (code defect). [fetchEmployees] does not check [response.ok]: a
    500 with a JSON error body leaves the list empty instead of the demo
    employees. The Analytics scenario of the claim does hold: with the
    dashboard call failing on the network, [total_employees] is 14999 and
    [loading] is false. *)
Theorem C4_api_error_status_skips_fallback :
  employees (fst (fetchEmployees
                    (FetchResponse 500 (Some (JObj [("detail", JStr "Internal Server Error")])))
                    employees_initial fresh_browser)) = JArr []
  /\ employees (fst (fetchEmployees
                       (FetchResponse 500 (Some (JObj [("detail", JStr "Internal Server Error")])))
                       employees_initial fresh_browser)) <> demo_employees
  /\ e_loading (fst (fetchEmployees
                       (FetchResponse 500 (Some (JObj [("detail", JStr "Internal Server Error")])))
                       employees_initial fresh_browser)) = false
  /\ (forall r2 r3 r4 r5 r6 r7 s,
        let s' := fetchAnalyticsData (mkAnalyticsResults NetworkError r2 r3 r4 r5 r6 r7) s in
        option_map total_employees (analyticsData s') = Some 14999%Z
        /\ a_loading s' = false).
Proof.
  split; [reflexivity|]. split; [simpl; discriminate|]. split; [reflexivity|].
  intros. split; reflexivity.
Qed.

(** Token effect of the client-routed prediction handlers. *)
Lemma fetchHighRiskEmployees_token : forall r s b,
  token (snd (fetchHighRiskEmployees r s b)) = if is_401 r then None else token b.
Proof.
  intros r s b. rewrite <- api_call_no_token with (op := OpHighRiskPredictions) (body := None).
  unfold fetchHighRiskEmployees. destruct r; reflexivity.
Qed.

Lemma predictTurnover_token : forall now iso p r s b,
  token (snd (predictTurnover now iso p r s b)) = if is_401 r then None else token b.
Proof.
  intros. unfold predictTurnover. cbv zeta. cbn [snd]. apply api_call_no_token.
Qed.

Lemma handleLogout_normal : forall r b,
  handleLogout r b = Normal (navigate "/login" (removeItem_token (api_call OpLogout None no_token r b))).
Proof. intros r b. unfold handleLogout. destruct r; reflexivity. Qed.

(** The fallback prediction's zone, band by band. *)
Lemma predict_fallback_zone : forall p now iso,
  zone_matches (turnover_probability (predict_fallback p now iso))
               (risk_zone (predict_fallback p now iso)).
Proof.
  intros p now iso. unfold predict_fallback, Qltb. cbn [turnover_probability risk_zone].
  destruct (Qle_bool (2 # 10) p) eqn:E1; simpl negb; cbv iota beta.
  2:{ apply zone_low. apply Qnot_le_lt. intro C. apply Qle_bool_iff in C. congruence. }
  destruct (Qle_bool (6 # 10) p) eqn:E2; simpl negb; cbv iota beta.
  2:{ apply zone_medium; [apply Qle_bool_iff; exact E1|].
      apply Qnot_le_lt. intro C. apply Qle_bool_iff in C. congruence. }
  destruct (Qle_bool (9 # 10) p) eqn:E3; simpl negb; cbv iota beta.
  - apply zone_critical. apply Qle_bool_iff. exact E3.
  - apply zone_high; [apply Qle_bool_iff; exact E2|].
    apply Qnot_le_lt. intro C. apply Qle_bool_iff in C. congruence.
Qed.

(** C5, counterexample. A login on the login page that the server
    refuses with 401 leaves the demo token ['demo-token'] stored. *)
Lemma C5_failed_login_writes_demo_token :
  token (loginPage_handleLogin "admin@company.com" "wrong"
           (ApiError 401 "Incorrect email or password") fresh_browser)
  = Some "demo-token".
Proof. reflexivity. Qed.

(** C5, as the code does it. Over every handler of the application that
    touches the browser, the token slot either stays as it was, or ends
    empty after a logout or a 401 seen through the client, or ends
    holding a token after a login handler; and the login page stores a
    token ['demo-token'] whenever its login call fails. *)
Theorem C5_token_writers :
  (forall h b,
     token (run_handler h b) = token b
     \/ (token (run_handler h b) = None /\ (is_logout h || handler_saw_401 h) = true)
     \/ (is_login h = true /\ exists t, token (run_handler h b) = Some t))
  /\ (forall email password r b, api_failed r = true ->
        token (loginPage_handleLogin email password r b) = Some "demo-token").
Proof.
  split.
  - intros h b.
    destruct h as [nts u p r | e p r | r | p env | s rs | s r | s id r1 r2 r3
                  | s now r r' | s r | s id r | s now iso mp r | r | r];
      cbn [run_handler is_login is_logout handler_saw_401 orb].
    + unfold landing_handleLogin. destruct r as [|st body]; [left; reflexivity|].
      destruct (response_ok st); [|left; reflexivity].
      destruct body as [j|]; [|left; reflexivity].
      destruct (get_field j "access_token");
        [right; right; split; [reflexivity | eexists; reflexivity] | left; reflexivity].
    + right; right. split; [reflexivity|].
      unfold loginPage_handleLogin. destruct r; eexists; reflexivity.
    + rewrite handleLogout_normal. right; left. split; reflexivity.
    + destruct p; cbn [mount_page handler_saw_401].
      * destruct (token b) eqn:E; [|left; exact E].
        rewrite api_call_no_token, E.
        destruct (is_401 (env_dashboard env));
          [right; left; split; reflexivity | left; reflexivity].
      * destruct (token b) eqn:E; [|left; exact E].
        rewrite api_call_no_token, E.
        destruct (is_401 (env_system_status env));
          [right; left; split; reflexivity | left; reflexivity].
      * rewrite analytics_requests_token.
        destruct (analytics_saw_401 (env_analytics env));
          [right; left; split; reflexivity | left; reflexivity].
      * left. apply fetchEmployees_token.
      * rewrite fetchHighRiskEmployees_token.
        destruct (is_401 (env_high_risk env));
          [right; left; split; reflexivity | left; reflexivity].
    + rewrite analytics_requests_token.
      destruct (analytics_saw_401 rs);
        [right; left; split; reflexivity | left; reflexivity].
    + left. apply fetchEmployees_token.
    + left. apply fetchEmployeeDetails_token.
    + left. apply createEmployee_token.
    + rewrite fetchHighRiskEmployees_token.
      destruct (is_401 r); [right; left; split; reflexivity | left; reflexivity].
    + left. apply fetchEmployeePredictions_token.
    + rewrite predictTurnover_token.
      destruct (is_401 r); [right; left; split; reflexivity | left; reflexivity].
    + rewrite api_call_no_token.
      destruct (is_401 r); [right; left; split; reflexivity | left; reflexivity].
    + rewrite api_call_no_token.
      destruct (is_401 r); [right; left; split; reflexivity | left; reflexivity].
  - intros email password r b H. unfold loginPage_handleLogin.
    destruct r; [discriminate H | reflexivity | reflexivity].
Qed.

Lemma C5_token_writers_witness :
  api_failed (A := LoginResponse) (ApiError 401 "Incorrect email or password") = true
  /\ token (loginPage_handleLogin "admin@company.com" "wrong"
              (ApiError 401 "Incorrect email or password") fresh_browser)
     = Some "demo-token".
Proof.
  split; [reflexivity|].
  apply (proj2 C5_token_writers). reflexivity.
Defined.

(** [createEmployee] sends its POST first, before the list refetch. *)
Lemma createEmployee_sent : forall now r r' s b,
  exists rest,
    sent (snd (createEmployee now r r' s b))
    = (sent b ++ mkRequest "POST" employees_url (Some (bearer_header b))
                   (Some (JObj (obj_set (obj_set (formData s) "employee_id"
                                           (JStr ("EMP" ++ now))) "left" (JNum 0))))
                 :: rest)%list.
Proof.
  intros now r r' s b. unfold createEmployee, fetchEmployees.
  destruct r as [|st body]; cbn.
  - exists []. reflexivity.
  - destruct (response_ok st); cbn.
    + eexists. rewrite <- app_assoc. reflexivity.
    + exists []. reflexivity.
Qed.

(** C6 (code defect). Typing [1.5] into the satisfaction input of the
    Add Employee tab and pressing Create sends the POST to [employees/]
    with [satisfaction_level] [1.5] in its body: the input's [min]/[max]
    attributes are not enforced, since no [<form>] surrounds them. *)
Theorem C6_out_of_range_satisfaction_is_sent : forall now r r_list b,
  exists req,
    In req (sent (snd (add_form_run
                         [TypeIntoField "satisfaction_level" (3 # 2);
                          ClickCreate now r r_list]
                         (employees_initial, b))))
    /\ req_method req = "POST"
    /\ req_url req = employees_url
    /\ option_map (fun j => get_field j "satisfaction_level") (req_body req)
       = Some (Normal (Some (JNum (3 # 2)))).
Proof.
  intros now r r_list b.
  destruct (createEmployee_sent now r r_list
              (handleFormChange "satisfaction_level" (JNum (3 # 2)) employees_initial) b)
    as [rest E].
  eexists. split.
  - cbn [add_form_run fold_left add_form_step].
    replace (e_loading (handleFormChange "satisfaction_level" (JNum (3 # 2))
                          employees_initial)) with false by reflexivity.
    rewrite E. apply in_or_app. right. left. reflexivity.
  - split; [reflexivity|]. split; [reflexivity|]. reflexivity.
Qed.

(** C7. [Navigation.handleLogout] never throws and, whether the server
    logout succeeds, is refused or never answers, and whether a token is
    stored or not, ends with the token slot empty (on the [/login]
    page). *)
Theorem C7_logout_always_clears : forall (r : api_result unit) (b : browser),
  exists b', handleLogout r b = Normal b' /\ token b' = None /\ href b' = Some "/login".
Proof.
  intros r b. rewrite handleLogout_normal. eexists. split; [reflexivity|].
  split; reflexivity.
Qed.

(** C8 (corrected). For every rate [v] in [[0,1]] whose exact product
    [v * 100] lies more than [2^-46] from a rounding tie (an odd multiple
    of [0.05]), both percentage renderings, the Dashboard's
    [(v*100).toFixed(1)%] and the Analytics view's
    [v ? (v*100).toFixed(1) : '0.0'], equal [round(v*100, 1)] (half up)
    with a [%] appended, although the product is first rounded to a
    double. *)
Theorem C8_percent_law_off_ties : forall (number_to_string : Q -> string) (v : Q),
  0 <= v <= 1 ->
  1 # 2 ^ 46 < tie_gap (v * 100) ->
  percent_dashboard number_to_string v = percent_law v
  /\ percent_analytics number_to_string v = percent_law v.
Proof.
  intros nts v Hv Hg.
  assert (P : percent_dashboard nts v = percent_law v).
  { unfold percent_dashboard, percent_law.
    rewrite toFixed1_times100_off_ties by assumption. reflexivity. }
  split; [exact P|].
  unfold percent_analytics. simpl truthy.
  destruct (Qeq_bool v 0) eqn:E; simpl negb; cbv iota beta.
  - apply Qeq_bool_iff in E. unfold percent_law.
    assert (R : round1 (v * 100) = 0%Z). { unfold round1. rewrite E. reflexivity. }
    rewrite R. reflexivity.
  - exact P.
Qed.

Lemma C8_percent_law_off_ties_witness :
  (0 <= 238 # 1000 <= 1) /\ (1 # 2 ^ 46 < tie_gap ((238 # 1000) * 100))
  /\ percent_dashboard (fun _ => "") (238 # 1000) = percent_law (238 # 1000)
  /\ percent_analytics (fun _ => "") (238 # 1000) = percent_law (238 # 1000).
Proof.
  assert (H : 0 <= 238 # 1000 <= 1) by (split; vm_compute; intro C; discriminate C).
  assert (G : 1 # 2 ^ 46 < tie_gap ((238 # 1000) * 100)) by (vm_compute; reflexivity).
  split; [exact H|]. split; [exact G|].
  exact (C8_percent_law_off_ties (fun _ => "") (238 # 1000) H G).
Defined.

(** C8 refuted as stated: the double [0.0015] (exactly
    [3458764513820541 / 2^61]) times [100] is exactly [0.15000000000000000312...],
    so [round(v*100, 1)] is [0.2]; but the double product is
    [0.14999999999999999444...], and both views show ["0.1%"]. *)
Lemma C8_double_product_below_tie :
  (exists p, b64_round (3458764513820541 # 2305843009213693952) = Some p
             /\ p == 3458764513820541 # 2305843009213693952)
  /\ 0 <= 3458764513820541 # 2305843009213693952 <= 1
  /\ (forall number_to_string : Q -> string,
        percent_dashboard number_to_string (3458764513820541 # 2305843009213693952) = "0.1%"
        /\ percent_analytics number_to_string (3458764513820541 # 2305843009213693952) = "0.1%")
  /\ percent_law (3458764513820541 # 2305843009213693952) = "0.2%".
Proof.
  split; [eexists; split; [vm_compute; reflexivity|vm_compute; reflexivity]|].
  split; [split; vm_compute; intro C; discriminate C|].
  split; [|vm_compute; reflexivity].
  intros nts. split; vm_compute; reflexivity.
Qed.




(** C10. When the predict call fails, the demo prediction shown has a
    risk zone that matches its probability under the bands [0.2], [0.6]
    and [0.9]. *)
Theorem C10_fallback_zone_consistent :
  forall now iso mockProbability (r : api_result Prediction) s b,
  api_failed r = true ->
  exists pr, predictionResult (fst (predictTurnover now iso mockProbability r s b)) = Some pr
             /\ zone_matches (turnover_probability pr) (risk_zone pr).
Proof.
  intros now iso p r s b H.
  destruct r as [d| |]; [discriminate H| |];
    exists (predict_fallback p now iso); (split; [reflexivity|]);
    apply predict_fallback_zone.
Qed.

Lemma C10_fallback_zone_consistent_witness :
  api_failed (A := Prediction) NetworkError = true
  /\ exists pr,
       predictionResult (fst (predictTurnover "1700000000000" "2024-01-15T10:30:00Z"
                                (7 # 10) NetworkError predictions_initial fresh_browser))
       = Some pr
       /\ zone_matches (turnover_probability pr) (risk_zone pr).
Proof.
  split; [reflexivity|].
  apply C10_fallback_zone_consistent. reflexivity.
Defined.

(* ================================================================= *)
(** ** More of the views: strings, filters, labels, bands, admin *)

Lemma js_startsWith_empty : forall s, js_startsWith s "" = true.
Proof. destruct s; reflexivity. Qed.

Lemma js_includes_empty : forall s, js_includes s "" = true.
Proof. destruct s; reflexivity. Qed.

Lemma lower_char_idem : forall c, lower_char (lower_char c) = lower_char c.
Proof.
  intros [b0 b1 b2 b3 b4 b5 b6 b7].
  destruct b0, b1, b2, b3, b4, b5, b6, b7; vm_compute; reflexivity.
Qed.

Lemma js_toLowerCase_idem : forall s, js_toLowerCase (js_toLowerCase s) = js_toLowerCase s.
Proof.
  induction s as [|c s IH]; [reflexivity|].
  simpl. rewrite lower_char_idem, IH. reflexivity.
Qed.

(** A character of [s]. *)
Fixpoint char_in (c : ascii) (s : string) : bool :=
  match s with
  | EmptyString => false
  | String c' s' => Ascii.eqb c c' || char_in c s'
  end.

Lemma js_startsWith_head : forall s c p,
  js_startsWith s (String c p) = true -> char_in c s = true.
Proof.
  intros [|c' s'] c p H; [discriminate H|].
  simpl in H. apply andb_true_iff in H as [H _]. simpl. rewrite H. reflexivity.
Qed.

Lemma js_includes_head : forall s c p,
  js_includes s (String c p) = true -> char_in c s = true.
Proof.
  induction s as [|c' s IH]; intros c p H.
  - discriminate H.
  - simpl in H. apply orb_true_iff in H as [H|H].
    + apply andb_true_iff in H as [H _]. simpl. rewrite H. reflexivity.
    + simpl. rewrite (IH c p H). apply orb_true_r.
Qed.

Lemma lower_fixed_char : forall s c,
  js_toLowerCase s = s -> char_in c s = true -> lower_char c = c.
Proof.
  induction s as [|c' s IH]; intros c Hs Hc; [discriminate Hc|].
  simpl in Hs. injection Hs as H1 H2.
  simpl in Hc. apply orb_true_iff in Hc as [Hc|Hc].
  - apply Ascii.eqb_eq in Hc. subst. exact H1.
  - exact (IH c H2 Hc).
Qed.

(** A lower-case string holds no pattern that starts with a capital. *)
Lemma lower_excludes_capital : forall s c p,
  js_toLowerCase s = s -> lower_char c <> c -> js_includes s (String c p) = false.
Proof.
  intros s c p Hs Hc. destruct (js_includes s (String c p)) eqn:E; [|reflexivity].
  exfalso. apply Hc. apply (lower_fixed_char s c Hs). exact (js_includes_head s c p E).
Qed.

(** [[...new Set(l)]] keeps one copy of each element of [l]. *)
Lemma js_Set_values_spec : forall l acc,
  NoDup acc ->
  NoDup (fold_left (fun acc x => if existsb (String.eqb x) acc then acc else (acc ++ [x])%list) l acc)
  /\ (forall y, In y (fold_left (fun acc x => if existsb (String.eqb x) acc then acc
                                              else (acc ++ [x])%list) l acc)
                <-> In y acc \/ In y l).
Proof.
  induction l as [|x l IH]; intros acc Hnd.
  - simpl. split; [exact Hnd|]. intros y. split; [left; exact H|intros [H|[]]; exact H].
  - simpl. destruct (existsb (String.eqb x) acc) eqn:E.
    + destruct (IH acc Hnd) as [N I]. split; [exact N|].
      intros y. rewrite I. split; [intros [H|H]; [left|right; right]; exact H|].
      intros [H|[H|H]]; [left; exact H| |right; exact H].
      left. subst. apply existsb_exists in E as [z [Hz Ez]].
      apply String.eqb_eq in Ez. subst. exact Hz.
    + assert (Hnd' : NoDup (acc ++ [x])%list).
      { apply NoDup_app; [exact Hnd|constructor; [intros []|constructor]|].
        intros z Hz [Hx|[]]. subst. apply not_true_iff_false in E. apply E.
        apply existsb_exists. exists z. split; [exact Hz|apply String.eqb_refl]. }
      destruct (IH _ Hnd') as [N I]. split; [exact N|].
      intros y. rewrite I, in_app_iff. simpl. tauto.
Qed.

Lemma js_Set_values_NoDup_In : forall l,
  NoDup (js_Set_values l) /\ (forall y, In y (js_Set_values l) <-> In y l).
Proof.
  intros l. destruct (js_Set_values_spec l [] (NoDup_nil _)) as [N I].
  split; [exact N|]. intros y. unfold js_Set_values. rewrite I. simpl. tauto.
Qed.

(** X1: with the search box empty and both selects on "All" (what Clear
    Filters sets), the list tab shows every employee, in order. *)
Theorem filteredEmployees_cleared :
  forall (E : Type) (employee_id department salary : E -> string) (employees : list E),
  filteredEmployees employee_id department salary employees "" "" "" = employees.
Proof.
  intros E eid dep sal es. unfold filteredEmployees.
  induction es as [|e es IH]; [reflexivity|].
  simpl. rewrite IH. unfold matchesFilters. simpl js_toLowerCase.
  rewrite !js_includes_empty. reflexivity.
Qed.

(** X2: the search is case-insensitive: typing a search term or its
    lower-case form shows the same rows. *)
Theorem filteredEmployees_search_case_insensitive :
  forall (E : Type) (employee_id department salary : E -> string) (employees : list E)
         (searchTerm filterDepartment filterSalary : string),
  filteredEmployees employee_id department salary employees
    (js_toLowerCase searchTerm) filterDepartment filterSalary
  = filteredEmployees employee_id department salary employees
      searchTerm filterDepartment filterSalary.
Proof.
  intros. unfold filteredEmployees, matchesFilters. rewrite js_toLowerCase_idem. reflexivity.
Qed.

(** X3: every row the list tab shows is an employee of the list whose
    department and salary equal the selected ones (an empty selection
    matching all), so the "Employees (n)" count never exceeds the list. *)
Theorem filteredEmployees_rows_match :
  forall (E : Type) (employee_id department salary : E -> string) (employees : list E)
         (searchTerm filterDepartment filterSalary : string) (e : E),
  (In e (filteredEmployees employee_id department salary employees
           searchTerm filterDepartment filterSalary) ->
   In e employees
   /\ (filterDepartment = "" \/ department e = filterDepartment)
   /\ (filterSalary = "" \/ salary e = filterSalary))
  /\ (List.length (filteredEmployees employee_id department salary employees
                     searchTerm filterDepartment filterSalary)
      <= List.length employees)%nat.
Proof.
  intros E eid dep sal es q fd fs e. split.
  - intros H. unfold filteredEmployees in H. apply filter_In in H as [Hin Hm].
    unfold matchesFilters in Hm. apply andb_true_iff in Hm as [Hm Hs].
    apply andb_true_iff in Hm as [_ Hd].
    split; [exact Hin|]. split.
    + apply orb_true_iff in Hd as [Hd|Hd]; apply String.eqb_eq in Hd; [left|right]; exact Hd.
    + apply orb_true_iff in Hs as [Hs|Hs]; apply String.eqb_eq in Hs; [left|right]; exact Hs.
  - unfold filteredEmployees. induction es as [|x es IH]; [reflexivity|].
    simpl. destruct (matchesFilters eid dep sal q fd fs x); simpl; lia.
Qed.

Lemma filteredEmployees_rows_match_witness :
  In "EMP001" (filteredEmployees (fun x => x) (fun _ => "sales") (fun _ => "low")
                 ["EMP001"; "EMP002"] "emp" "sales" "low")
  /\ In "EMP001" ["EMP001"; "EMP002"]
  /\ ("sales" = "" \/ "sales" = "sales")
  /\ ("low" = "" \/ "low" = "low").
Proof.
  assert (H : In "EMP001" (filteredEmployees (fun x => x) (fun _ => "sales") (fun _ => "low")
                             ["EMP001"; "EMP002"] "emp" "sales" "low"))
    by (vm_compute; left; reflexivity).
  split; [exact H|].
  apply (proj1 (filteredEmployees_rows_match string (fun x => x) (fun _ => "sales")
                  (fun _ => "low") ["EMP001"; "EMP002"] "emp" "sales" "low" "EMP001")).
  exact H.
Defined.

(** X4: the Department and Salary Level selects list each department
    (salary level) of the employees exactly once, nothing else, and
    picking any listed option with an empty search shows at least one
    row. *)
Theorem filter_options_sound :
  forall (E : Type) (employee_id department salary : E -> string) (employees : list E),
  NoDup (departments department employees)
  /\ NoDup (salaryLevels salary employees)
  /\ (forall d, In d (departments department employees)
                <-> exists e, In e employees /\ department e = d)
  /\ (forall l, In l (salaryLevels salary employees)
                <-> exists e, In e employees /\ salary e = l)
  /\ (forall d, In d (departments department employees) ->
        filteredEmployees employee_id department salary employees "" d "" <> [])
  /\ (forall l, In l (salaryLevels salary employees) ->
        filteredEmployees employee_id department salary employees "" "" l <> []).
Proof.
  intros E eid dep sal es.
  destruct (js_Set_values_NoDup_In (map dep es)) as [ND ID].
  destruct (js_Set_values_NoDup_In (map sal es)) as [NS IS].
  unfold departments, salaryLevels.
  assert (D : forall d, In d (js_Set_values (map dep es)) <-> exists e, In e es /\ dep e = d).
  { intros d. rewrite ID, in_map_iff. split; intros [e [H1 H2]]; exists e; split; assumption. }
  assert (S : forall l, In l (js_Set_values (map sal es)) <-> exists e, In e es /\ sal e = l).
  { intros l. rewrite IS, in_map_iff. split; intros [e [H1 H2]]; exists e; split; assumption. }
  split; [exact ND|]. split; [exact NS|]. split; [exact D|]. split; [exact S|]. split.
  - intros d Hd. apply D in Hd as [e [He Hde]].
    assert (Hf : In e (filteredEmployees eid dep sal es "" d "")).
    { unfold filteredEmployees. apply filter_In. split; [exact He|].
      unfold matchesFilters. simpl js_toLowerCase. rewrite !js_includes_empty.
      rewrite Hde, (String.eqb_refl d), !orb_true_r. reflexivity. }
    intros C. rewrite C in Hf. exact Hf.
  - intros l Hl. apply S in Hl as [e [He Hle]].
    assert (Hf : In e (filteredEmployees eid dep sal es "" "" l)).
    { unfold filteredEmployees. apply filter_In. split; [exact He|].
      unfold matchesFilters. simpl js_toLowerCase. rewrite !js_includes_empty.
      rewrite Hle, (String.eqb_refl l), !orb_true_r. reflexivity. }
    intros C. rewrite C in Hf. exact Hf.
Qed.

Lemma filter_options_sound_witness :
  In "sales" (departments (fun p : string * string => fst p)
                [("sales", "low"); ("IT", "high"); ("sales", "medium")])
  /\ filteredEmployees (fun p : string * string => snd p) (fun p => fst p) (fun p => snd p)
       [("sales", "low"); ("IT", "high"); ("sales", "medium")] "" "sales" "" <> [].
Proof.
  assert (H : In "sales" (departments (fun p : string * string => fst p)
                            [("sales", "low"); ("IT", "high"); ("sales", "medium")]))
    by (vm_compute; left; reflexivity).
  split; [exact H|].
  exact (proj1 (proj2 (proj2 (proj2 (proj2
           (filter_options_sound (string * string) (fun p => snd p) (fun p => fst p)
              (fun p => snd p) [("sales", "low"); ("IT", "high"); ("sales", "medium")])))))
           "sales" H).
Defined.

Lemma fetchHighRiskEmployees_pair : forall r s b,
  fetchHighRiskEmployees r s b =
  (set_highRiskEmployees (match r with ApiOk d => d | _ => demo_highRiskEmployees end) s,
   api_call OpHighRiskPredictions None no_token r b).
Proof. intros [] s b; reflexivity. Qed.

Lemma predictTurnover_call : forall now iso mp r s b,
  exists body, snd (predictTurnover now iso mp r s b) = api_call OpPredict (Some body) no_token r b.
Proof. intros. eexists. reflexivity. Qed.

(** X8: Refresh All Data sends, in this order, the high-risk request, the
    predict request when a prediction result is shown, and the employee
    history request when the employee ID box is not empty; it never
    navigates and always ends with [loading] cleared. *)
Theorem refreshAllData_requests :
  forall employeeId r_high now iso mockProbability r_pred r_hist s b,
  map req_url (sent (snd (refreshAllData employeeId r_high now iso mockProbability r_pred r_hist s b))) =
    (map req_url (sent b) ++ [(api_base ++ "predictions/high-risk")%string]
     ++ match predictionResult s with
        | Some _ => [(api_base ++ "predictions/predict")%string] | None => [] end
     ++ (if String.eqb employeeId "" then []
         else [(api_base ++ "predictions/employee/" ++ employeeId)%string]))%list
  /\ href (snd (refreshAllData employeeId r_high now iso mockProbability r_pred r_hist s b)) = href b
  /\ p_loading (fst (refreshAllData employeeId r_high now iso mockProbability r_pred r_hist s b)) = false.
Proof.
  intros. unfold refreshAllData. rewrite fetchHighRiskEmployees_pair.
  cbn iota beta zeta.
  set (b1 := api_call OpHighRiskPredictions None no_token r_high b).
  assert (H1 : map req_url (sent b1) = (map req_url (sent b) ++ [(api_base ++ "predictions/high-risk")%string])%list
               /\ href b1 = href b).
  { destruct (api_call_sent _ OpHighRiskPredictions None no_token r_high b) as [E F].
    subst b1. rewrite E, F, map_app. split; reflexivity. }
  clearbody b1. destruct H1 as [U1 K1].
  set (s1 := set_highRiskEmployees _ (set_p_loading true s)).
  assert (P1 : predictionResult s1 = predictionResult s) by reflexivity.
  clearbody s1. rewrite P1.
  destruct (predictionResult s) as [p|] eqn:P.
  - destruct (predictTurnover now iso mockProbability r_pred s1 b1) as [s2 b2] eqn:T.
    destruct (predictTurnover_call now iso mockProbability r_pred s1 b1) as [body Hb].
    rewrite T in Hb. cbn [snd] in Hb.
    destruct (api_call_sent _ OpPredict (Some body) no_token r_pred b1) as [E F].
    rewrite <- Hb in E, F.
    destruct (String.eqb employeeId "").
    + cbn [fst snd]. rewrite E, F, map_app, U1, K1, <- app_assoc. repeat split; reflexivity.
    + cbn [fst snd]. unfold fetchEmployeePredictions. cbn [fst snd].
      rewrite sent_issue, href_issue, E, F, !map_app, U1, K1, <- !app_assoc.
      repeat split; reflexivity.
  - destruct (String.eqb employeeId "").
    + cbn [fst snd]. rewrite U1, K1, app_nil_r. repeat split; reflexivity.
    + cbn [fst snd]. unfold fetchEmployeePredictions. cbn [fst snd].
      rewrite sent_issue, href_issue, map_app, U1, K1, <- app_assoc. repeat split; reflexivity.
Qed.

(** X5: a risk zone that is already lower case ("low", "high", ...), as
    the prediction endpoints and the demo data write it, matches none of
    the capitalised patterns: its badge reads UNKNOWN, in gray. *)
Theorem lowercase_zone_unknown : forall risk,
  js_toLowerCase risk = risk ->
  PredictionsView.getShortRiskZone risk = "UNKNOWN"
  /\ PredictionsView.getRiskColor risk = "bg-gray-100 text-gray-800".
Proof.
  intros risk H.
  unfold PredictionsView.getShortRiskZone, PredictionsView.getRiskColor.
  rewrite !(lower_excludes_capital risk _ _ H) by (vm_compute; discriminate).
  split; reflexivity.
Qed.

Lemma lowercase_zone_unknown_witness :
  js_toLowerCase "high" = "high"
  /\ PredictionsView.getShortRiskZone "high" = "UNKNOWN"
  /\ PredictionsView.getRiskColor "high" = "bg-gray-100 text-gray-800".
Proof.
  assert (H : js_toLowerCase "high" = "high") by reflexivity.
  split; [exact H|]. exact (lowercase_zone_unknown "high" H).
Defined.

(** X6: the badge colour and the badge label of a risk zone determine
    each other: two zones get the same label exactly when they get the
    same colour. *)
Theorem risk_badge_label_colour : forall z1 z2,
  PredictionsView.getShortRiskZone z1 = PredictionsView.getShortRiskZone z2
  <-> PredictionsView.getRiskColor z1 = PredictionsView.getRiskColor z2.
Proof.
  intros z1 z2. unfold PredictionsView.getShortRiskZone, PredictionsView.getRiskColor.
  destruct (js_includes z1 "Safe Zone" || js_includes z1 "Green"),
           (js_includes z2 "Safe Zone" || js_includes z2 "Green");
  try (destruct (js_includes z1 "Low Risk" || js_includes z1 "Yellow"));
  try (destruct (js_includes z2 "Low Risk" || js_includes z2 "Yellow"));
  try (destruct (js_includes z1 "Medium Risk" || js_includes z1 "Orange"));
  try (destruct (js_includes z2 "Medium Risk" || js_includes z2 "Orange"));
  try (destruct (js_includes z1 "High Risk" || js_includes z1 "Red"));
  try (destruct (js_includes z2 "High Risk" || js_includes z2 "Red"));
  split; intro H; solve [reflexivity | discriminate H].
Qed.

Lemma predict_fallback_zone_cases : forall mp now iso,
  risk_zone (predict_fallback mp now iso) = "low"
  \/ risk_zone (predict_fallback mp now iso) = "medium"
  \/ risk_zone (predict_fallback mp now iso) = "high"
  \/ risk_zone (predict_fallback mp now iso) = "critical".
Proof.
  intros. unfold predict_fallback. cbn [risk_zone].
  destruct (Qltb mp (2 # 10)); [tauto|].
  destruct (Qltb mp (6 # 10)); [tauto|].
  destruct (Qltb mp (9 # 10)); tauto.
Qed.

(** X7: the demo prediction shown when the predict call fails always has
    a lower-case zone: its badge reads "UNKNOWN RISK ZONE" in gray, while
    the Risk Assessment box shows exactly one sentence. *)
Theorem fallback_prediction_card : forall mockProbability now iso,
  let z := risk_zone (predict_fallback mockProbability now iso) in
  PredictionsView.getShortRiskZone z = "UNKNOWN"
  /\ PredictionsView.getRiskColor z = "bg-gray-100 text-gray-800"
  /\ exists t, PredictionsView.risk_assessment z = [t].
Proof.
  intros mp now iso z. subst z.
  destruct (predict_fallback_zone_cases mp now iso) as [E|[E|[E|E]]]; rewrite E;
  (split; [reflexivity|split; [reflexivity|eexists; reflexivity]]).
Qed.

(** If [s] starts with both [p1] and [p2], one of them starts with the
    other. *)
Lemma js_startsWith_comparable : forall s p1 p2,
  js_startsWith s p1 = true -> js_startsWith s p2 = true ->
  js_startsWith p1 p2 = true \/ js_startsWith p2 p1 = true.
Proof.
  induction s as [|c s IH]; intros [|c1 p1] [|c2 p2] H1 H2;
    try (left; reflexivity); try (right; reflexivity); try discriminate.
  simpl in H1, H2. apply andb_true_iff in H1 as [E1 H1]. apply andb_true_iff in H2 as [E2 H2].
  apply Ascii.eqb_eq in E1, E2. subst. simpl. rewrite Ascii.eqb_refl. simpl.
  exact (IH p1 p2 H1 H2).
Qed.

(** X9: the navigation bar highlights at most one link, and it highlights
    Dashboard exactly on the path "/". *)
Theorem navigation_single_active : forall pathname,
  (List.length (active_items pathname) <= 1)%nat
  /\ (In ("Dashboard", "/") (active_items pathname) <-> pathname = "/").
Proof.
  intros p.
  destruct (String.eqb p "/") eqn:E0.
  { apply String.eqb_eq in E0. subst p. vm_compute.
    split; [lia|split; [reflexivity|intros _; left; reflexivity]]. }
  unfold active_items, navigation_items, isActive. cbn -[js_startsWith String.eqb].
  replace (String.eqb "/" "/") with true by reflexivity.
  replace (String.eqb "/employees" "/") with false by reflexivity.
  replace (String.eqb "/analytics" "/") with false by reflexivity.
  replace (String.eqb "/admin" "/") with false by reflexivity.
  rewrite E0.
  assert (Hne : p <> "/") by (intro C; subst; discriminate E0).
  destruct (js_startsWith p "/employees") eqn:E1,
           (js_startsWith p "/analytics") eqn:E2,
           (js_startsWith p "/admin") eqn:E3;
  try (exfalso;
       first [ destruct (js_startsWith_comparable p _ _ E1 E2) as [C|C]
             | destruct (js_startsWith_comparable p _ _ E1 E3) as [C|C]
             | destruct (js_startsWith_comparable p _ _ E2 E3) as [C|C] ];
       discriminate C);
  (split; [simpl; lia|]);
  (split; [simpl; intros H; repeat destruct H as [H|H]; try discriminate H; contradiction
          |intros C; contradiction]).
Qed.

(** X10: the rate colour bands follow the thresholds strictly: red above
    25%, yellow above 15% up to 25%, green at 15% and below. *)
Theorem rate_band_of_thresholds : forall rate,
  (rate_band_of rate = BandRed <-> 25 # 100 < rate)
  /\ (rate_band_of rate = BandYellow <-> 15 # 100 < rate /\ rate <= 25 # 100)
  /\ (rate_band_of rate = BandGreen <-> rate <= 15 # 100).
Proof.
  intros r. unfold rate_band_of, Qltb.
  destruct (Qle_bool r (25 # 100)) eqn:E1; destruct (Qle_bool r (15 # 100)) eqn:E2;
  repeat match goal with
         | H : Qle_bool _ _ = true |- _ => apply Qle_bool_iff in H
         | H : Qle_bool _ _ = false |- _ =>
             apply Bool.not_true_iff_false in H; rewrite Qle_bool_iff in H;
             apply Qnot_le_lt in H
         end;
  simpl; repeat split; intros;
  repeat match goal with H : _ /\ _ |- _ => destruct H end;
  try split; try discriminate; try reflexivity; try lra; exfalso; lra.
Qed.

(** X11: the colour band never goes down as the rate goes up. *)
Theorem rate_band_monotone : forall r1 r2,
  r1 <= r2 -> (band_rank (rate_band_of r1) <= band_rank (rate_band_of r2))%nat.
Proof.
  intros r1 r2 H. unfold rate_band_of, Qltb.
  destruct (Qle_bool r1 (25 # 100)) eqn:A1, (Qle_bool r2 (25 # 100)) eqn:A2,
           (Qle_bool r1 (15 # 100)) eqn:B1, (Qle_bool r2 (15 # 100)) eqn:B2;
  simpl; try lia;
  repeat match goal with
         | H : Qle_bool _ _ = true |- _ => apply Qle_bool_iff in H
         | H : Qle_bool _ _ = false |- _ =>
             apply Bool.not_true_iff_false in H; rewrite Qle_bool_iff in H;
             apply Qnot_le_lt in H
         end; exfalso; lra.
Qed.

Lemma rate_band_monotone_witness :
  (band_rank (rate_band_of (15 # 100)) <= band_rank (rate_band_of (16 # 100)))%nat.
Proof. apply rate_band_monotone. vm_compute. discriminate. Defined.

(** X12: the Overview's department table shows the "No department data
    available" row exactly when [department_stats] is [null] or
    missing (an empty array gives an empty body), and the render throws
    exactly when it is some other non-array value. *)
Theorem department_tbody_cases : forall department_stats,
  ((exists rows, department_tbody department_stats = Normal rows
                 /\ In NoDepartmentData rows)
   <-> department_stats = None \/ department_stats = Some JNull)
  /\ ((exists e, department_tbody department_stats = Throw e)
      <-> exists v, department_stats = Some v /\ v <> JNull /\ forall l, v <> JArr l).
Proof.
  intros v. split; split.
  - intros [rows [E H]].
    destruct v as [[|b|q|s|l|kv]|]; cbn in E; try discriminate E; injection E as <-.
    + right; reflexivity.
    + apply in_map_iff in H as [x [C _]]. discriminate C.
    + left; reflexivity.
  - intros [-> | ->]; exists [NoDepartmentData]; (split; [reflexivity|left; reflexivity]).
  - intros [e E].
    destruct v as [[|b|q|s|l|kv]|]; cbn in E; try discriminate E;
      eexists; (split; [reflexivity|split; [discriminate|intros l' C; discriminate C]]).
  - intros [x [-> [H1 H2]]].
    destruct x as [|b|q|s|l|kv]; cbn; try (eexists; reflexivity).
    + contradiction.
    + destruct (H2 l eq_refl).
Qed.

(** X13: the Dashboard page's mount: without a non-empty stored token it
    only redirects to /landing (no request, state untouched); with one it
    sends the dashboard-analytics request, marks the user authenticated,
    clears [loading] and keeps the previous stats when the call fails. *)
Theorem dashboard_mount_effects : forall r s b,
  if truthy (option_map JStr (token b)) then
    isAuthenticated (fst (dashboard_mount r s b)) = true
    /\ d_loading (fst (dashboard_mount r s b)) = false
    /\ activeView (fst (dashboard_mount r s b)) = activeView s
    /\ dashboardStats (fst (dashboard_mount r s b))
       = match r with ApiOk d => Some d | _ => dashboardStats s end
    /\ sent (snd (dashboard_mount r s b))
       = (sent b ++ [api_request OpDashboardAnalytics None b])%list
    /\ href (snd (dashboard_mount r s b)) = href b
  else
    dashboard_mount r s b = (s, navigate "/landing" b).
Proof.
  intros r s b. unfold dashboard_mount.
  destruct (truthy (option_map JStr (token b))); [|reflexivity].
  unfold fetchDashboardStats. cbn [fst snd].
  destruct (api_call_sent _ OpDashboardAnalytics None no_token r b) as [E F].
  rewrite E, F. destruct r; repeat split; reflexivity.
Qed.

(** X14: starting from the page's initial state, the Overview shows the
    stats cards after the mount exactly when a non-empty token is
    stored and the dashboard-analytics call succeeds. *)
Theorem dashboard_initial_stats_shown : forall r b,
  dashboard_shows_stats (fst (dashboard_mount r dashboard_initial b)) = true
  <-> truthy (option_map JStr (token b)) = true /\ exists d, r = ApiOk d.
Proof.
  intros r b. unfold dashboard_mount.
  destruct (truthy (option_map JStr (token b))).
  - destruct r as [d| |]; cbn.
    + split; [intros _; split; [reflexivity|exists d; reflexivity]|reflexivity].
    + split; [discriminate|intros [_ [d C]]; discriminate C].
    + split; [discriminate|intros [_ [d C]]; discriminate C].
  - cbn. split; [discriminate|intros [C _]; discriminate C].
Qed.

(** X15: the department label of the High Risk Table replaces only the
    first underscore by a space: one underscore fewer when there was
    one, the same length. *)
Theorem department_label_first_underscore : forall department,
  count_char (department_label department) "_" = pred (count_char department "_")
  /\ String.length (department_label department) = String.length department.
Proof.
  unfold department_label.
  induction department as [|c d [IH1 IH2]]; [split; reflexivity|].
  cbn [js_replace_char]. destruct (Ascii.eqb c "_") eqn:E.
  - apply Ascii.eqb_eq in E. subst c. split; reflexivity.
  - cbn [count_char String.length]. rewrite E, IH1, IH2. split; reflexivity.
Qed.

(** X16: the admin status badge ignores case, and on the three health
    values [getHealthColor] knows (healthy, warning, critical) it gives
    the same colour as [getHealthColor]. *)
Theorem admin_status_colour : forall s,
  AdminView.getStatusColor (js_toLowerCase s) = AdminView.getStatusColor s
  /\ (AdminView.getHealthColor s = "text-gray-600 bg-gray-100"
      \/ AdminView.getStatusColor s = AdminView.getHealthColor s).
Proof.
  intros s. split.
  - unfold AdminView.getStatusColor. rewrite js_toLowerCase_idem. reflexivity.
  - unfold AdminView.getHealthColor.
    destruct (String.eqb s "healthy") eqn:E1;
      [apply String.eqb_eq in E1; subst; right; reflexivity|].
    destruct (String.eqb s "warning") eqn:E2;
      [apply String.eqb_eq in E2; subst; right; reflexivity|].
    destruct (String.eqb s "critical") eqn:E3;
      [apply String.eqb_eq in E3; subst; right; reflexivity|].
    left; reflexivity.
Qed.

(** X17: the System Health card of a status whose [system_health] is
    missing or empty reads "Unknown" next to a red dot, in the red
    class of "critical". *)
Theorem health_card_falsy : forall systemStatus h,
  get_field systemStatus "system_health" = Normal h -> truthy h = false ->
  health_card systemStatus = Normal ("bg-red-500", "text-red-600 bg-red-100", JStr "Unknown").
Proof.
  intros st h G T. unfold health_card. rewrite G. unfold js_or. rewrite T.
  destruct h as [[|bb|q|v|l|kv]|]; try reflexivity.
  cbn in T. destruct (String.eqb v "") eqn:E; [|discriminate T].
  apply String.eqb_eq in E. subst v. reflexivity.
Qed.

Lemma health_card_falsy_witness :
  health_card (JObj [("status", JStr "online"); ("system_health", JStr "")])
  = Normal ("bg-red-500", "text-red-600 bg-red-100", JStr "Unknown").
Proof. apply (health_card_falsy _ (Some (JStr ""))); reflexivity. Defined.

(** X18: on the System Health card the dot and the label are green
    together and yellow together, whatever [system_health] holds. *)
Theorem health_card_hues : forall systemStatus dot cls txt,
  health_card systemStatus = Normal (dot, cls, txt) ->
  (dot = "bg-green-500" <-> cls = "text-green-600 bg-green-100")
  /\ (dot = "bg-yellow-500" <-> cls = "text-yellow-600 bg-yellow-100").
Proof.
  intros st dot cls txt H. unfold health_card in H.
  destruct (get_field st "system_health") as [h|e]; [|discriminate H].
  injection H as <- <- _. unfold js_or.
  destruct h as [[|bb|q|v|l|kv]|]; cbn [truthy].
  1-3, 5-7: repeat match goal with |- context [if ?c then _ else _] => destruct c end;
             (split; split; intro C; discriminate C).
  destruct (String.eqb v "") eqn:E0.
  { apply String.eqb_eq in E0. subst v. split; split; intro C; discriminate C. }
  cbn [negb]. unfold AdminView.getHealthColor.
  destruct (String.eqb v "healthy"); [split; split; intro C; solve [reflexivity|discriminate C]|].
  destruct (String.eqb v "warning"); [split; split; intro C; solve [reflexivity|discriminate C]|].
  destruct (String.eqb v "critical"); split; split; intro C; discriminate C.
Qed.

Lemma health_card_hues_witness :
  ("bg-yellow-500" = "bg-green-500" <-> "text-yellow-600 bg-yellow-100" = "text-green-600 bg-green-100")
  /\ ("bg-yellow-500" = "bg-yellow-500" <-> "text-yellow-600 bg-yellow-100" = "text-yellow-600 bg-yellow-100").
Proof.
  apply (health_card_hues (JObj [("system_health", JStr "warning")]) _ _ (JStr "warning")).
  reflexivity.
Defined.

Lemma admin_run_cons : forall e tr sb,
  admin_run (e :: tr) sb = admin_run tr (admin_step e sb).
Proof. reflexivity. Qed.

Lemma admin_run_status_truthy : forall tr s b,
  truthy (Some (systemStatus s)) = true ->
  (forall d, In (FetchStatusSettle (ApiOk d)) tr -> truthy (Some d) = true) ->
  truthy (Some (systemStatus (fst (admin_run tr (s, b))))) = true.
Proof.
  induction tr as [|e tr IH]; intros s b Hs Hd; [exact Hs|].
  rewrite admin_run_cons.
  assert (Hd' : forall d, In (FetchStatusSettle (ApiOk d)) tr -> truthy (Some d) = true)
    by (intros d H; apply Hd; right; exact H).
  destruct e as [|r| |r iso]; cbn [admin_step]; apply IH; try exact Hd'; try exact Hs.
  cbn [systemStatus]. destruct r as [d| |]; try reflexivity.
  apply Hd. left. reflexivity.
Qed.

(** X19: once the admin view holds a status, the full-page "Loading
    system status..." placeholder never comes back, whatever fetches and
    trainings start or settle, as long as no successful status response
    carries a falsy body. *)
Theorem admin_placeholder_never_returns : forall tr s b,
  truthy (Some (systemStatus s)) = true ->
  (forall d, In (FetchStatusSettle (ApiOk d)) tr -> truthy (Some d) = true) ->
  admin_placeholder (fst (admin_run tr (s, b))) = false.
Proof.
  intros tr s b Hs Hd. unfold admin_placeholder.
  rewrite (admin_run_status_truthy tr s b Hs Hd). apply andb_false_r.
Qed.

Lemma admin_placeholder_never_returns_witness :
  admin_placeholder
    (fst (admin_run [FetchStatusStart; TrainStart; FetchStatusSettle NetworkError;
                     TrainSettle (ApiError 500 "Internal Server Error") "2024-01-01T00:00:00Z";
                     FetchStatusStart]
            (mkAdminState demo_systemStatus JNull false false, mkBrowser None None [] [])))
  = false.
Proof.
  apply admin_placeholder_never_returns; [reflexivity|].
  intros d H. repeat destruct H as [H|H]; try discriminate H. contradiction.
Defined.

Lemma admin_run_no_settle : forall tr s b,
  (forall r, ~ In (FetchStatusSettle r) tr) ->
  systemStatus (fst (admin_run tr (s, b))) = systemStatus s
  /\ ad_loading (fst (admin_run tr (s, b))) = ad_loading s || existsb is_status_start tr.
Proof.
  induction tr as [|e tr IH]; intros s b H.
  - cbn. rewrite orb_false_r. split; reflexivity.
  - rewrite admin_run_cons.
    assert (H' : forall r, ~ In (FetchStatusSettle r) tr) by (intros r C; apply (H r); right; exact C).
    destruct e as [|r| |r iso]; cbn [admin_step].
    + match goal with |- context [admin_run tr (?s', ?b')] => destruct (IH s' b' H') as [E1 E2] end.
      rewrite E1, E2. cbn. rewrite ?orb_true_r. split; reflexivity.
    + exfalso. apply (H r). left. reflexivity.
    + match goal with |- context [admin_run tr (?s', ?b')] => destruct (IH s' b' H') as [E1 E2] end.
      rewrite E1, E2. cbn. rewrite ?orb_true_r. split; reflexivity.
    + match goal with |- context [admin_run tr (?s', ?b')] => destruct (IH s' b' H') as [E1 E2] end.
      rewrite E1, E2. cbn. rewrite ?orb_true_r. split; reflexivity.
Qed.

(** X20: from the admin view's initial state, until the first status
    response arrives, the "Loading system status..." placeholder is
    shown exactly when a status fetch has been started. *)
Theorem admin_placeholder_before_first_status : forall tr b,
  (forall r, ~ In (FetchStatusSettle r) tr) ->
  admin_placeholder (fst (admin_run tr (admin_initial, b))) = existsb is_status_start tr.
Proof.
  intros tr b H. destruct (admin_run_no_settle tr admin_initial b H) as [E1 E2].
  unfold admin_placeholder. rewrite E1, E2. cbn. apply andb_true_r.
Qed.

Lemma admin_placeholder_before_first_status_witness :
  admin_placeholder (fst (admin_run [TrainStart; FetchStatusStart]
                            (admin_initial, mkBrowser (Some "t") None [] [])))
  = existsb is_status_start [TrainStart; FetchStatusStart].
Proof.
  apply admin_placeholder_before_first_status.
  intros r C. repeat destruct C as [C|C]; try discriminate C. contradiction.
Defined.
